(** * coronaviz: the paginated dataset fetcher of [backend/data/uk/covid.py]

    A shallow embedding of [GovUKCoronavirusData] (its default query
    structure, [get_latest_data] and [get_paginated_dataset]) together
    with the Python built-ins the code calls on strings, lists and
    dictionaries, followed by the properties of the pagination loop. *)

From Stdlib Require Import List ZArith NArith Bool Lia String Ascii.
From Stdlib Require Import SpecFloat.
Import ListNotations.

Set Implicit Arguments.
Set Warnings "-register-all".

(** ** Python strings

    A Python [str] is a sequence of Unicode code points; a code point is
    kept as its ordinal. *)

Module Str.

Definition char := N.
Definition str := list char.

(** A string literal of the source, given in ASCII. *)
Definition lit (s : string) : str :=
  List.map N_of_ascii (list_ascii_of_string s).

(** The line feed, written ["\n"] in the source. *)
Definition LF : char := 10%N.

Definition QUOTE : char := 34%N.
Definition BACKSLASH : char := 92%N.
Definition SPACE : char := 32%N.

Fixpoint eqb (a b : str) : bool :=
  match a, b with
  | [], [] => true
  | x :: a', y :: b' => N.eqb x y && eqb a' b'
  | _, _ => false
  end.

(** [str.join(sep, parts)]. *)
Fixpoint join (sep : str) (parts : list str) : str :=
  match parts with
  | [] => []
  | [p] => p
  | p :: rest => p ++ sep ++ join sep rest
  end.

(** [s.split(sep)] for a separator of one character, the only form the
    source calls ([csv_content.split("\n")]). The result is never empty:
    the empty string splits into one empty field. *)
Fixpoint split (sep : char) (s : str) : list str :=
  match s with
  | [] => [[]]
  | c :: rest =>
      if N.eqb c sep then [] :: split sep rest
      else match split sep rest with
           | field :: fields => (c :: field) :: fields
           | [] => [[c]]
           end
  end.

(** [str.isspace] on one character: the code points CPython's
    [_PyUnicode_IsWhitespace] accepts. *)
Definition isspace (c : char) : bool :=
  ((9 <=? c) && (c <=? 13)
   || (28 <=? c) && (c <=? 32)
   || (c =? 133) || (c =? 160) || (c =? 5760)
   || (8192 <=? c) && (c <=? 8202)
   || (c =? 8232) || (c =? 8233) || (c =? 8239)
   || (c =? 8287) || (c =? 12288))%N.

Fixpoint lstrip (s : str) : str :=
  match s with
  | [] => []
  | c :: rest => if isspace c then lstrip rest else s
  end.

Definition rstrip (s : str) : str := rev (lstrip (rev s)).

(** [s.strip()]: whitespace removed at both ends. *)
Definition strip (s : str) : str := rstrip (lstrip s).

(** Digits of [format(n, "04x")]. *)
Definition hex_digit (d : N) : char :=
  (if d <? 10 then 48 + d else 87 + d)%N.

Definition hex4 (n : N) : str :=
  [ hex_digit (N.land (N.shiftr n 12) 15);
    hex_digit (N.land (N.shiftr n 8) 15);
    hex_digit (N.land (N.shiftr n 4) 15);
    hex_digit (N.land n 15) ].

End Str.

Import Str.

(** ** Exceptions and results *)

(** Exceptions raised inside the libraries the code calls ([requests.get],
    [Response.json], [bytes.decode]); the loop has no handler for them. *)
Inductive LibraryError : Type :=
  | ConnectionError
  | ReadTimeout
  | JSONDecodeError
  | UnicodeDecodeError
  | OtherLibraryError (name : str).

Inductive PyExn : Type :=
  | RuntimeError (msg : str)      (* the [raise] of the status check *)
  | KeyError (key : str)          (* a missing dictionary key *)
  | TypeError                     (* subscript or iteration of a wrong type *)
  | Propagated (e : LibraryError) (* passed through from a library call *).

Definition PyResult (A : Type) : Type := (PyExn + A)%type.

Definition ret {A} (a : A) : PyResult A := inr a.
Definition raise {A} (e : PyExn) : PyResult A := inl e.

Definition bind {A B} (m : PyResult A) (k : A -> PyResult B) : PyResult B :=
  match m with
  | inl e => inl e
  | inr a => k a
  end.

Declare Scope py_scope.
Delimit Scope py_scope with py.
Notation "x <- m ;; k" := (bind m (fun x => k))
  (at level 61, m at next level, right associativity) : py_scope.

(** A library call that either gives a value or raises. *)
Definition lift {A} (m : LibraryError + A) : PyResult A :=
  match m with
  | inl e => inl (Propagated e)
  | inr a => inr a
  end.

(** ** Dictionaries

    A Python [dict] keeps its keys in insertion order and holds each key
    once; assigning to a key that is present replaces the value where it
    stands. *)

Module Dict.

Definition dict (V : Type) : Type := list (str * V).

Fixpoint lookup {V} (d : dict V) (key : str) : option V :=
  match d with
  | [] => None
  | (k, v) :: rest => if Str.eqb k key then Some v else lookup rest key
  end.

(** [d[key] = value]. *)
Fixpoint setitem {V} (d : dict V) (key : str) (value : V) : dict V :=
  match d with
  | [] => [(key, value)]
  | (k, v) :: rest =>
      if Str.eqb k key then (k, value) :: rest
      else (k, v) :: setitem rest key value
  end.

Definition keys {V} (d : dict V) : list str := List.map fst d.

(** The value of a display [{k1: v1, k2: v2, ...}]: the entries are
    assigned from left to right. *)
Definition assign {V} (d : dict V) (kv : str * V) : dict V :=
  setitem d (fst kv) (snd kv).

Definition literal {V} (entries : list (str * V)) : dict V :=
  fold_left assign entries [].

End Dict.

Import Dict.

(** ** Values

    What [Response.json()] can give back: the Python image of a JSON
    document. A float is kept as its IEEE 754 datum. *)

Inductive PyValue : Type :=
  | PyNone
  | PyBool (b : bool)
  | PyInt (z : Z)
  | PyFloat (f : spec_float)
  | PyStr (s : str)
  | PyList (items : list PyValue)
  | PyDict (entries : list (str * PyValue)).

(** [v is None]. *)
Definition is_None (v : PyValue) : bool :=
  match v with
  | PyNone => true
  | _ => false
  end.

(** [v[key]] for a string key: only a dictionary can answer; a missing key
    is a [KeyError], every other type a [TypeError]. *)
Definition py_getitem (v : PyValue) (key : str) : PyResult PyValue :=
  match v with
  | PyDict entries =>
      match Dict.lookup entries key with
      | Some x => ret x
      | None => raise (KeyError key)
      end
  | _ => raise TypeError
  end.

(** The items [list.extend(v)] takes from [v]: the elements of a list, the
    keys of a dictionary, the characters of a string; other values are not
    iterable. *)
Definition py_iter (v : PyValue) : PyResult (list PyValue) :=
  match v with
  | PyList items => ret items
  | PyDict entries => ret (List.map (fun k => PyStr k) (Dict.keys entries))
  | PyStr s => ret (List.map (fun c => PyStr [c]) s)
  | _ => raise TypeError
  end.

(** [str.join(sep, items)] on a list object: every item has to be a
    string. *)
Fixpoint py_strs (items : list PyValue) : PyResult (list str) :=
  match items with
  | [] => ret []
  | PyStr s :: rest => (ss <- py_strs rest ;; ret (s :: ss))%py
  | _ :: _ => raise TypeError
  end.

Definition py_str_join (sep : str) (items : list PyValue) : PyResult str :=
  (ss <- py_strs items ;; ret (Str.join sep ss))%py.

(** ** The structure parameter and [json.dumps]

    [StructureType = Dict[str, Union[dict, str]]]. *)

Inductive StructureValue : Type :=
  | SStr (s : str)
  | SDict (entries : list (str * StructureValue)).

Definition StructureType : Type := dict StructureValue.
Definition FiltersType : Type := list str.

Module Json.

(** [json.encoder.py_encode_basestring_ascii] on one character: the quote
    and the backslash are escaped, printable ASCII is kept, the rest is
    written as a short escape or as [\uXXXX] (a surrogate pair above the
    basic plane). *)
Definition escape_char (c : char) : str :=
  (if c =? QUOTE then [BACKSLASH; QUOTE]
   else if c =? BACKSLASH then [BACKSLASH; BACKSLASH]
   else if (32 <=? c) && (c <=? 126) then [c]
   else if c =? 10 then [BACKSLASH; 110]
   else if c =? 13 then [BACKSLASH; 114]
   else if c =? 9 then [BACKSLASH; 116]
   else if c =? 8 then [BACKSLASH; 98]
   else if c =? 12 then [BACKSLASH; 102]
   else if c <? 65536 then [BACKSLASH; 117] ++ hex4 c
   else
     let n := c - 65536 in
     let s1 := N.lor 55296 (N.land (N.shiftr n 10) 1023) in
     let s2 := N.lor 56320 (N.land n 1023) in
     [BACKSLASH; 117] ++ hex4 s1 ++ [BACKSLASH; 117] ++ hex4 s2)%N.

Definition encode_basestring (s : str) : str :=
  [QUOTE] ++ flat_map escape_char s ++ [QUOTE].

Section Dumps.

(** [separators = (item_separator, key_separator)]. *)
Variable separators : str * str.

Let item_separator := fst separators.
Let key_separator := snd separators.

Fixpoint dumps_value (v : StructureValue) : str :=
  match v with
  | SStr s => encode_basestring s
  | SDict entries =>
      lit "{" ++
      Str.join item_separator
        (List.map (fun kv => encode_basestring (fst kv) ++ key_separator
                             ++ dumps_value (snd kv)) entries)
      ++ lit "}"
  end.

(** [json.dumps(structure, separators=separators)]. *)
Definition dumps (structure : StructureType) : str :=
  dumps_value (SDict structure).

End Dumps.

End Json.

(** ** [covid.py] *)

Inductive AreaTypeEnum : Type :=
  | OVERVIEW
  | NATION
  | REGION
  | NHS_REGION
  | UPPER_TIER_LOCAL_AUTHORITY
  | LOWER_TIER_LOCAL_AUTHORITY.

Definition value (a : AreaTypeEnum) : str :=
  match a with
  | OVERVIEW => lit "overview"
  | NATION => lit "nation"
  | REGION => lit "region"
  | NHS_REGION => lit "nhsRegion"
  | UPPER_TIER_LOCAL_AUTHORITY => lit "utla"
  | LOWER_TIER_LOCAL_AUTHORITY => lit "ltla"
  end.

Definition entry (key field : string) : str * StructureValue :=
  (lit key, SStr (lit field)).

(** The entries of the display that defines [DEFAULT_QUERY_STRUCTURE], in
    the order of the source. *)
Definition DEFAULT_QUERY_STRUCTURE_entries : list (str * StructureValue) :=
  Eval cbv in
    [
      entry "areaType" "areaType";
      entry "areaName" "areaName";
      entry "areaCode" "areaCode";
      entry "date" "date";
      entry "hash" "hash";
      entry "newCasesByPublishDate" "newCasesByPublishDate";
      entry "cumCasesByPublishDate" "cumCasesByPublishDate";
      entry "cumCasesBySpecimenDateRate" "cumCasesBySpecimenDateRate";
      entry "newCasesBySpecimenDate" "newCasesBySpecimenDate";
      entry "cumCasesBySpecimenDateRate" "cumCasesBySpecimenDateRate";
      entry "cumCasesBySpecimenDate" "cumCasesBySpecimenDate";
      entry "maleCases" "maleCases";
      entry "femaleCases" "femaleCases";
      entry "newPillarOneTestsByPublishDate" "newPillarOneTestsByPublishDate";
      entry "cumPillarOneTestsByPublishDate" "cumPillarOneTestsByPublishDate";
      entry "newPillarTwoTestsByPublishDate" "newPillarTwoTestsByPublishDate";
      entry "cumPillarTwoTestsByPublishDate" "cumPillarTwoTestsByPublishDate";
      entry "newPillarThreeTestsByPublishDate" "newPillarThreeTestsByPublishDate";
      entry "cumPillarThreeTestsByPublishDate" "cumPillarThreeTestsByPublishDate";
      entry "newPillarFourTestsByPublishDate" "newPillarFourTestsByPublishDate";
      entry "cumPillarFourTestsByPublishDate" "cumPillarFourTestsByPublishDate";
      entry "newAdmissions" "newAdmissions";
      entry "cumAdmissions" "cumAdmissions";
      entry "cumAdmissionsByAge" "cumAdmissionsByAge";
      entry "cumTestsByPublishDate" "cumTestsByPublishDate";
      entry "newTestsByPublishDate" "newTestsByPublishDate";
      entry "covidOccupiedMVBeds" "covidOccupiedMVBeds";
      entry "hospitalCases" "hospitalCases";
      entry "plannedCapacityByPublishDate" "plannedCapacityByPublishDate";
      entry "newDeaths28DaysByPublishDate" "newDeaths28DaysByPublishDate";
      entry "cumDeaths28DaysByPublishDate" "cumDeaths28DaysByPublishDate";
      entry "cumDeaths28DaysByPublishDateRate" "cumDeaths28DaysByPublishDateRate";
      entry "newDeaths28DaysByDeathDate" "newDeaths28DaysByDeathDate";
      entry "cumDeaths28DaysByDeathDate" "cumDeaths28DaysByDeathDate";
      entry "cumDeaths28DaysByDeathDateRate" "cumDeaths28DaysByDeathDateRate"
    ].

Definition DEFAULT_QUERY_STRUCTURE : StructureType :=
  Eval cbv in Dict.literal DEFAULT_QUERY_STRUCTURE_entries.

(** *** The HTTP exchange

    [requests.get] is the only contact with the outside. A response is
    kept as what the loop reads from it: [status_code], [text], the result
    of [content.decode()] and the result of [json()]. *)

Record Response : Type := {
  status_code : Z;
  text : str;
  content_decode : LibraryError + str;
  json : LibraryError + PyValue
}.

(** What one call of [get] comes back with: a response, or an exception
    of the library (no connection, the ten seconds elapsed). *)
Inductive Reply : Type :=
  | Answer (response : Response)
  | Failure (e : LibraryError).

Record Request : Type := {
  endpoint : str;
  params : dict PyValue;
  timeout : Z
}.

Module HTTPStatus.
Definition NO_CONTENT : Z := 204.
Definition BAD_REQUEST : Z := 400.
End HTTPStatus.

(** The variables the loop updates. *)
Record LoopState : Type := {
  api_params : dict PyValue;
  data : list PyValue;
  page_number : Z
}.

Inductive Step : Type :=
  | Continue (st : LoopState)
  | Break (st : LoopState)
  | Raise (e : PyExn).

Definition of_result (r : PyResult Step) : Step :=
  match r with
  | inl e => Raise e
  | inr s => s
  end.

(** The body of [while True] from the status check on (the request has
    been answered by [response]). *)
Definition loop_body (as_csv : bool) (st : LoopState) (response : Response)
  : Step :=
  if (status_code response >=? HTTPStatus.BAD_REQUEST)%Z then
    Raise (RuntimeError (lit "Request failed: " ++ text response))
  else if (status_code response =? HTTPStatus.NO_CONTENT)%Z then
    Break st
  else if as_csv then
    of_result (
      csv_content <- lift (content_decode response) ;;
      let csv_content :=
        if (page_number st >? 1)%Z then
          let data_lines := tl (Str.split LF csv_content) in
          Str.join [LF] data_lines
        else csv_content in
      ret (Continue {| api_params := api_params st;
                       data := data st ++ [PyStr (strip csv_content)];
                       page_number := page_number st + 1 |}))%py
  else
    of_result (
      current_data <- lift (json response) ;;
      page_data <- py_getitem current_data (lit "data") ;;
      items <- py_iter page_data ;;
      let data' := data st ++ items in
      pagination <- py_getitem current_data (lit "pagination") ;;
      next <- py_getitem pagination (lit "next") ;;
      if is_None next then
        ret (Break {| api_params := api_params st;
                      data := data';
                      page_number := page_number st |})
      else
        ret (Continue {| api_params := api_params st;
                         data := data';
                         page_number := page_number st + 1 |}))%py.

(** How a call ends: with a value, with an exception, or still waiting for
    an answer the server script does not hold. *)
Inductive Outcome : Type :=
  | Returned (v : PyValue)
  | Raised (e : PyExn)
  | Pending.

Record Run : Type := {
  outcome : Outcome;
  requests : list Request
}.

Definition sent (request : Request) (r : Run) : Run :=
  {| outcome := outcome r; requests := request :: requests r |}.

(** The statements after the loop. *)
Definition after_loop (as_csv : bool) (st : LoopState) : Outcome :=
  if negb as_csv then Returned (PyList (data st))
  else match py_str_join [LF] (data st) with
       | inr s => Returned (PyStr s)
       | inl e => Raised e
       end.

Definition ENDPOINT : str := lit "https://api.coronavirus.data.gov.uk/v1/data".

(** The top of a turn: [api_params["page"] = page_number]. *)
Definition turn (st : LoopState) : LoopState :=
  {| api_params := Dict.setitem (api_params st) (lit "page")
                     (PyInt (page_number st));
     data := data st;
     page_number := page_number st |}.

(** [while True]: each turn writes the page number into [api_params],
    sends the request and runs the body on the answer. The server is the
    sequence of its replies, one per request. *)
Fixpoint while_true (as_csv : bool) (server : list Reply) (st : LoopState)
  : Run :=
  let st := turn st in
  let request := {| endpoint := ENDPOINT;
                    params := api_params st;
                    timeout := 10 |} in
  match server with
  | [] => {| outcome := Pending; requests := [request] |}
  | Failure e :: _ =>
      {| outcome := Raised (Propagated e); requests := [request] |}
  | Answer response :: server' =>
      match loop_body as_csv st response with
      | Continue st' => sent request (while_true as_csv server' st')
      | Break st' =>
          {| outcome := after_loop as_csv st'; requests := [request] |}
      | Raise e => {| outcome := Raised e; requests := [request] |}
      end
  end.

Definition get_paginated_dataset (filters : FiltersType)
    (structure : StructureType) (as_csv : bool) (server : list Reply) : Run :=
  let api_params :=
    Dict.literal
      [ (lit "filters", PyStr (Str.join (lit ";") filters));
        (lit "structure",
         PyStr (Json.dumps (lit ",", lit ":") structure));
        (lit "format",
         PyStr (if negb as_csv then lit "json" else lit "csv")) ] in
  while_true as_csv server
    {| api_params := api_params; data := []; page_number := 1 |}.

Definition get_latest_data (filters : option FiltersType)
    (structure : option StructureType) (server : list Reply) : Run :=
  let filters :=
    match filters with
    | None => [lit "areaType=" ++ value REGION]
    | Some filters => filters
    end in
  let structure :=
    match structure with
    | None => DEFAULT_QUERY_STRUCTURE
    | Some structure => structure
    end in
  get_paginated_dataset filters structure false server.

(** ** The vocabulary of the properties *)

Definition occurrences (key : str) (ks : list str) : nat :=
  List.length (List.filter (Str.eqb key) ks).

(** The request of the turn for page [page], when the loop was entered
    with the parameters [base]. *)
Definition request_for (base : dict PyValue) (page : Z) : Request :=
  {| endpoint := ENDPOINT;
     params := Dict.setitem base (lit "page") (PyInt page);
     timeout := 10 |}.

(** A status the loop takes for a page of data. *)
Definition data_status (response : Response) : bool :=
  (status_code response <? HTTPStatus.BAD_REQUEST)%Z
  && negb (status_code response =? HTTPStatus.NO_CONTENT)%Z.

(** The [k]-th reply of the server (from 0) is a response, and the call
    got as far as the request it answers. *)
Definition received (server : list Reply) (run : Run) (k : nat)
    (response : Response) : Prop :=
  nth_error server k = Some (Answer response)
  /\ k < List.length (requests run).

(** What the specification calls a page: a response with a data status and, in
    JSON, a body that parses to an object with a [data] list and a
    [pagination] object holding [next]. *)
Definition json_fields (response : Response)
  : option (list PyValue * PyValue) :=
  match json response with
  | inr (PyDict entries) =>
      match Dict.lookup entries (lit "data"),
            Dict.lookup entries (lit "pagination") with
      | Some (PyList records), Some (PyDict pagination) =>
          match Dict.lookup pagination (lit "next") with
          | Some next => Some (records, next)
          | None => None
          end
      | _, _ => None
      end
  | _ => None
  end.

(** A JSON page; [last] tells whether its [pagination.next] is null. *)
Definition json_page (last : bool) (response : Response) : bool :=
  data_status response
  && match json_fields response with
     | Some (_, next) => Bool.eqb (is_None next) last
     | None => false
     end.

(** [N >= 1] JSON pages of which only the last has a null [next]. *)
Fixpoint chained (pages : list Response) : bool :=
  match pages with
  | [] => false
  | [page] => json_page true page
  | page :: rest => json_page false page && chained rest
  end.

(** The [data] sequence of a JSON page. *)
Definition records (response : Response) : list PyValue :=
  match json_fields response with
  | Some (records, _) => records
  | None => []
  end.

(** A CSV page with the given text. *)
Definition csv_page (body : str) (response : Response) : bool :=
  data_status response
  && match content_decode response with
     | inr content => Str.eqb content body
     | inl _ => false
     end.

(** What the loop keeps of a CSV page fetched as page [page]. *)
Definition csv_blob (page : Z) (body : str) : str :=
  strip (if (page >? 1)%Z
         then Str.join [LF] (tl (Str.split LF body))
         else body).

(** A page of a JSON answer, as the server of the API writes it. *)
Definition json_response (recs : list PyValue) (next : PyValue) : Response :=
  {| status_code := 200;
     text := [];
     content_decode := inr [];
     json := inr (PyDict [ (lit "data", PyList recs);
                           (lit "pagination",
                            PyDict [(lit "next", next)]) ]) |}.

(** CSV pages with the given texts, one for one. *)
Fixpoint csv_pages (bodies : list str) (pages : list Response) : bool :=
  match bodies, pages with
  | [], [] => true
  | body :: bodies', page :: pages' =>
      csv_page body page && csv_pages bodies' pages'
  | _, _ => false
  end.

(** What the loop keeps of consecutive CSV pages, the first of them
    fetched as page [page]. *)
Fixpoint csv_blobs (page : Z) (bodies : list str) : list str :=
  match bodies with
  | [] => []
  | body :: bodies' => csv_blob page body :: csv_blobs (page + 1) bodies'
  end.

(** Text with something in it and no whitespace at either end. *)
Definition trimmed (s : str) : bool :=
  match s with
  | [] => false
  | c :: _ => negb (isspace c) && negb (isspace (last s c))
  end.

(** Text that holds no line feed. *)
Definition one_line (s : str) : bool := negb (existsb (N.eqb LF) s).

(** A CSV page of a header line and what follows it. *)
Definition with_header (page : str * str) : str :=
  fst page ++ LF :: snd page.

(** A response whose body is the text [body], which is not JSON. *)
Definition text_response (status : Z) (body : str) : Response :=
  {| status_code := status;
     text := body;
     content_decode := inr body;
     json := inl JSONDecodeError |}.

(** What is wrong with the body of a response taken as a JSON page, as the
    exception Python raises on it: the body does not parse, the parsed
    value is no object or has no ["data"], its data cannot be iterated,
    it has no ["pagination"], or that is no object or has no ["next"].
    [None] when the page is well formed. *)
Definition json_defect (response : Response) : option PyExn :=
  match json response with
  | inl e => Some (Propagated e)
  | inr (PyDict entries) =>
      match Dict.lookup entries (lit "data") with
      | None => Some (KeyError (lit "data"))
      | Some (PyList _) | Some (PyDict _) | Some (PyStr _) =>
          match Dict.lookup entries (lit "pagination") with
          | None => Some (KeyError (lit "pagination"))
          | Some (PyDict pagination) =>
              match Dict.lookup pagination (lit "next") with
              | None => Some (KeyError (lit "next"))
              | Some _ => None
              end
          | Some _ => Some TypeError
          end
      | Some _ => Some TypeError
      end
  | inr _ => Some TypeError
  end.

(** The parameters every request of a call carries beside the page. *)
Definition query_params (filters : FiltersType) (structure : StructureType)
    (as_csv : bool) : dict PyValue :=
  [ (lit "filters", PyStr (Str.join (lit ";") filters));
    (lit "structure", PyStr (Json.dumps (lit ",", lit ":") structure));
    (lit "format", PyStr (if negb as_csv then lit "json" else lit "csv")) ].

(** Text without a space in it. *)
Definition spaceless (s : str) : bool :=
  forallb (fun c => negb (c =? SPACE)%N) s.

Fixpoint spaceless_value (v : StructureValue) : bool :=
  match v with
  | SStr s => spaceless s
  | SDict entries =>
      forallb (fun kv => spaceless (fst kv) && spaceless_value (snd kv))
        entries
  end.

(** ** More vocabulary: how calls end, and what requests look like *)

(** The [k]-th reply of the server (from 0) is an exception raised inside
    [get], and the call got as far as the request it answers. *)
Definition failed (server : list Reply) (run : Run) (k : nat)
    (e : LibraryError) : Prop :=
  nth_error server k = Some (Failure e)
  /\ k < List.length (requests run).

(** A response with a data status whose content decodes. *)
Definition csv_readable (response : Response) : bool :=
  data_status response
  && match content_decode response with
     | inr _ => true
     | inl _ => false
     end.

(** The decoded content of a response ([""] when it does not decode). *)
Definition csv_text (response : Response) : str :=
  match content_decode response with
  | inr content => content
  | inl _ => []
  end.

(** Printable ASCII: the characters from the space to the tilde. *)
Definition printable (s : str) : bool :=
  forallb (fun c => (32 <=? c) && (c <=? 126))%N s.

(** A response with what [json()] gives replaced, and one with what
    [content.decode()] gives replaced. *)
Definition with_json (j : LibraryError + PyValue) (response : Response)
  : Response :=
  {| status_code := status_code response;
     text := text response;
     content_decode := content_decode response;
     json := j |}.

Definition with_content (c : LibraryError + str) (response : Response)
  : Response :=
  {| status_code := status_code response;
     text := text response;
     content_decode := c;
     json := json response |}.

(** Two servers that reply alike up to a relation on responses. *)
Inductive alike (R : Response -> Response -> Prop)
  : list Reply -> list Reply -> Prop :=
  | alike_nil : alike R [] []
  | alike_answer r r' server server' :
      R r r' -> alike R server server' ->
      alike R (Answer r :: server) (Answer r' :: server')
  | alike_failure e server server' :
      alike R server server' ->
      alike R (Failure e :: server) (Failure e :: server').

(** The same response as far as CSV mode reads it, and as far as JSON mode
    reads it. *)
Definition same_for_csv (r r' : Response) : Prop :=
  status_code r = status_code r' /\ text r = text r'
  /\ content_decode r = content_decode r'.

Definition same_for_json (r r' : Response) : Prop :=
  status_code r = status_code r' /\ text r = text r'
  /\ json r = json r'.

(** [AreaTypeEnum.__str__]. *)
Definition AreaTypeEnum_str (a : AreaTypeEnum) : str := value a.

(** ** [nhs_regions.py] and [uk_regions.py]

    The bodies of the classes [NHSBoundaryData] and [RegionalBoundaryData]
    run when the module is imported. They are the same statements on
    different constants: read the GeoJSON file if it is there, else log,
    download it, write it and log again. *)

Inductive LogLevel : Type :=
  | ERROR
  | INFO.

(** What the class body can see and change: the files (a path is bound to
    the text of the file that is there), the records given to [logging]
    and the URLs asked of [requests.get], both oldest first. *)
Record World : Type := {
  files : dict str;
  logged : list (LogLevel * str);
  fetched : list str
}.

(** The library functions the class body calls: [json.loads] (which
    [json.load] applies to the text of the file), [json.dumps] (whose text
    [json.dump] writes) and [Path(p).absolute()] as text. *)
Record Platform : Type := {
  json_loads : str -> LibraryError + PyValue;
  json_dumps : PyValue -> str;
  absolute : str -> str
}.

(** The constants of one class: the attributes [filepath] and
    [source_url], and the message of its [logging.error]. *)
Record BoundaryClass : Type := {
  filepath : str;
  source_url : str;
  missing_message : str
}.

Definition NHSBoundaryData : BoundaryClass :=
  {| filepath := lit "nhs_regions.geojson";
     source_url := lit "http://geoportal1-ons.opendata.arcgis.com/datasets/0d03007bd13b48ebbeb1d95110338585_0.geojson";
     missing_message := lit "No NHS region data found - downloading..." |}.

Definition RegionalBoundaryData : BoundaryClass :=
  {| filepath := lit "regions.geojson";
     source_url := lit "http://geoportal1-ons.opendata.arcgis.com/datasets/f99b145881724e15a04a8a113544dfc5_0.geojson?outSR={%22latestWkid%22:27700,%22wkid%22:27700}";
     missing_message := lit "No region data found - downloading..." |}.

Definition log (level : LogLevel) (message : str) (w : World) : World :=
  {| files := files w;
     logged := logged w ++ [(level, message)];
     fetched := fetched w |}.

Definition fetch (url : str) (w : World) : World :=
  {| files := files w;
     logged := logged w;
     fetched := fetched w ++ [url] |}.

(** The file at [path] holds [content] (made if it was not there). *)
Definition write (path content : str) (w : World) : World :=
  {| files := Dict.setitem (files w) path content;
     logged := logged w;
     fetched := fetched w |}.

(** The class body: the value bound to [data] or the exception that ends
    the import, and the world after it. [open(filepath)] raises [IOError]
    when the file is not there, the only [IOError] of this model;
    [http url] is what [requests.get(url)] comes back with. Opening the
    file for writing empties it before anything is parsed. *)
Definition class_body (P : Platform) (http : str -> Reply)
    (c : BoundaryClass) (w : World) : PyResult PyValue * World :=
  match Dict.lookup (files w) (filepath c) with
  | Some content => (lift (json_loads P content), w)
  | None =>
      let w := log ERROR (missing_message c) w in
      let w := fetch (source_url c) w in
      match http (source_url c) with
      | Failure e => (raise (Propagated e), w)
      | Answer response =>
          let w := write (filepath c) [] w in
          match json_loads P (text response) with
          | inl e => (raise (Propagated e), w)
          | inr data =>
              let w := write (filepath c) (json_dumps P data) w in
              let w := log INFO (lit "Wrote data to "
                                 ++ absolute P (filepath c)) w in
              (ret data, w)
          end
      end
  end.

(** A platform for examples: the text [null] is the only document. *)
Definition null_platform : Platform :=
  {| json_loads := fun s => if Str.eqb s (lit "null") then inr PyNone
                            else inl JSONDecodeError;
     json_dumps := fun _ => lit "null";
     absolute := fun p => lit "/srv/" ++ p |}.

Definition empty_world : World :=
  {| files := []; logged := []; fetched := [] |}.

(** *** The class body on any file system

    What can stand at a path, as far as [open] tells: nothing (and making
    a file there works, or raises), something [open] opens in no mode (a
    directory, a path below a directory that may not be searched), or a
    regular file with its text and the exception, if any, that opening it
    for reading and for writing raises. A file the process makes is one
    it may read and write. *)
Inductive Node : Type :=
  | Missing (creating : option LibraryError)
  | Closed (err : LibraryError)
  | File (content : str) (reading writing : option LibraryError).

(** The machine the import runs on: a path not listed is missing and can
    be made. *)
Record Host : Type := {
  nodes : dict Node;
  host_logged : list (LogLevel * str);
  host_fetched : list str
}.

Definition node_at (h : Host) (path : str) : Node :=
  match Dict.lookup (nodes h) path with
  | Some n => n
  | None => Missing None
  end.

(** [open(path)] and reading the text: [None] when [open] raises, which is
    an [IOError] whatever the reason. *)
Definition open_read (n : Node) : option str :=
  match n with
  | File content None _ => Some content
  | _ => None
  end.

(** [open(path, 'w')]: the exception it raises, or the node once the file
    is made or emptied. *)
Definition open_write (n : Node) : LibraryError + Node :=
  match n with
  | Missing None => inr (File [] None None)
  | Missing (Some err) => inl err
  | Closed err => inl err
  | File _ reading None => inr (File [] reading None)
  | File _ _ (Some err) => inl err
  end.

(** Writing [content] to the open file. *)
Definition put (content : str) (n : Node) : Node :=
  match n with
  | File _ reading writing => File content reading writing
  | other => other
  end.

Definition host_log (level : LogLevel) (message : str) (h : Host) : Host :=
  {| nodes := nodes h;
     host_logged := host_logged h ++ [(level, message)];
     host_fetched := host_fetched h |}.

Definition host_fetch (url : str) (h : Host) : Host :=
  {| nodes := nodes h;
     host_logged := host_logged h;
     host_fetched := host_fetched h ++ [url] |}.

Definition set_node (path : str) (n : Node) (h : Host) : Host :=
  {| nodes := Dict.setitem (nodes h) path n;
     host_logged := host_logged h;
     host_fetched := host_fetched h |}.

(** The class body, with every way [open] can fail: [except IOError]
    takes over whenever the file cannot be opened for reading, and an
    exception of [open(filepath, 'w')] ends the import, there being no
    handler around it. *)
Definition class_body_os (P : Platform) (http : str -> Reply)
    (c : BoundaryClass) (h : Host) : PyResult PyValue * Host :=
  match open_read (node_at h (filepath c)) with
  | Some content => (lift (json_loads P content), h)
  | None =>
      let h := host_log ERROR (missing_message c) h in
      let h := host_fetch (source_url c) h in
      match http (source_url c) with
      | Failure e => (raise (Propagated e), h)
      | Answer response =>
          match open_write (node_at h (filepath c)) with
          | inl err => (raise (Propagated err), h)
          | inr f =>
              let h := set_node (filepath c) f h in
              match json_loads P (text response) with
              | inl e => (raise (Propagated e), h)
              | inr data =>
                  let h := set_node (filepath c)
                             (put (json_dumps P data) f) h in
                  let h := host_log INFO (lit "Wrote data to "
                                          ++ absolute P (filepath c)) h in
                  (ret data, h)
              end
          end
      end
  end.

(** A world of plain files as a host: every file listed may be read and
    written, every other path is missing and can be made. *)
Definition host_of (w : World) : Host :=
  {| nodes := List.map (fun kv => (fst kv, File (snd kv) None None))
                (files w);
     host_logged := logged w;
     host_fetched := fetched w |}.

(** * Properties *)

(** ** Strings *)

Module StrFacts.

Lemma eqb_eq (a b : str) : Str.eqb a b = true <-> a = b.
Proof.
  revert b; induction a as [|x a IH]; intros [|y b]; simpl;
    try (split; congruence).
  rewrite andb_true_iff, N.eqb_eq, IH.
  split; [intros [-> ->]; reflexivity | intros H; inversion H; auto].
Qed.

Lemma eqb_refl (a : str) : Str.eqb a a = true.
Proof. apply eqb_eq; reflexivity. Qed.

Lemma eqb_neq (a b : str) : Str.eqb a b = false <-> a <> b.
Proof.
  rewrite <- eqb_eq. destruct (Str.eqb a b); split; congruence.
Qed.

Lemma eqb_sym (a b : str) : Str.eqb a b = Str.eqb b a.
Proof.
  destruct (Str.eqb b a) eqn:E.
  - apply eqb_eq in E; subst; apply eqb_refl.
  - apply eqb_neq. apply eqb_neq in E. congruence.
Qed.

Lemma split_not_nil (c : char) (s : str) : Str.split c s <> [].
Proof.
  destruct s as [|x s]; simpl; [discriminate|].
  destruct (N.eqb x c); [discriminate|].
  destruct (Str.split c s); discriminate.
Qed.

(** Splitting after a first field that holds no separator. *)
Lemma split_first_field (c : char) (h s : str) :
  ~ In c h -> Str.split c (h ++ c :: s) = h :: Str.split c s.
Proof.
  induction h as [|x h IH]; intros Hc; simpl.
  - now rewrite N.eqb_refl.
  - destruct (N.eqb_spec x c) as [->|_].
    + exfalso; apply Hc; left; reflexivity.
    + rewrite IH; [reflexivity|]. intros Hin; apply Hc; right; exact Hin.
Qed.

Lemma join_cons (sep p q : str) (rest : list str) :
  Str.join sep (p :: q :: rest) = p ++ sep ++ Str.join sep (q :: rest).
Proof. reflexivity. Qed.

(** Joining undoes splitting. *)
Lemma join_split (c : char) (s : str) : Str.join [c] (Str.split c s) = s.
Proof.
  induction s as [|x s IH]; [reflexivity|].
  simpl Str.split.
  pose proof (split_not_nil c s) as Hne.
  destruct (Str.split c s) as [|f fs] eqn:E; [congruence|].
  destruct (N.eqb_spec x c) as [->|_].
  - rewrite join_cons, IH. reflexivity.
  - destruct fs as [|g fs].
    + simpl in *. now rewrite IH.
    + rewrite <- IH. reflexivity.
Qed.

(** Dropping the first line, as the loop does for a page after the
    first. *)
Lemma drop_first_line (h s : str) :
  ~ In LF h -> Str.join [LF] (tl (Str.split LF (h ++ LF :: s))) = s.
Proof.
  intros Hh. rewrite split_first_field by exact Hh. simpl.
  apply join_split.
Qed.

Lemma lstrip_keeps (c : char) (s : str) :
  isspace c = false -> lstrip (c :: s) = c :: s.
Proof. intros H; simpl; now rewrite H. Qed.

Lemma lstrip_spaces (ws s : str) :
  forallb isspace ws = true -> lstrip (ws ++ s) = lstrip s.
Proof.
  induction ws as [|w ws IH]; simpl; [reflexivity|].
  rewrite andb_true_iff. intros [-> H]. now apply IH.
Qed.

Lemma rstrip_keeps (s : str) (c : char) :
  isspace c = false -> rstrip (s ++ [c]) = s ++ [c].
Proof.
  intros H. unfold rstrip. rewrite rev_app_distr.
  change (rev [c] ++ rev s) with (c :: rev s).
  rewrite lstrip_keeps by exact H.
  simpl. now rewrite rev_involutive.
Qed.

Lemma rstrip_spaces (s ws : str) :
  forallb isspace ws = true -> rstrip (s ++ ws) = rstrip s.
Proof.
  intros H. unfold rstrip. rewrite rev_app_distr.
  rewrite lstrip_spaces; [reflexivity|].
  rewrite forallb_forall in *. intros x Hx. apply H.
  now apply in_rev.
Qed.

End StrFacts.

(** ** Dictionaries *)

Module DictFacts.

Import StrFacts.

Section WithValues.

Context {V : Type}.
Implicit Types (d : dict V) (k : str) (v : V).

Lemma lookup_setitem_same d k v :
  Dict.lookup (Dict.setitem d k v) k = Some v.
Proof.
  induction d as [|[k0 v0] d IH]; simpl.
  - now rewrite eqb_refl.
  - destruct (Str.eqb k0 k) eqn:E; simpl; rewrite E; auto.
Qed.

Lemma lookup_setitem_other d k k' v :
  k <> k' -> Dict.lookup (Dict.setitem d k v) k' = Dict.lookup d k'.
Proof.
  intros Hne. induction d as [|[k0 v0] d IH]; simpl.
  - apply eqb_neq in Hne. now rewrite Hne.
  - destruct (Str.eqb k0 k) eqn:E; simpl.
    + apply eqb_eq in E; subst k0.
      apply eqb_neq in Hne. now rewrite Hne.
    + now rewrite IH.
Qed.

(** Assigning twice to a key leaves the second value, in the place of
    the first. *)
Lemma setitem_setitem d k v v' :
  Dict.setitem (Dict.setitem d k v) k v' = Dict.setitem d k v'.
Proof.
  induction d as [|[k0 v0] d IH]; simpl.
  - now rewrite eqb_refl.
  - destruct (Str.eqb k0 k) eqn:E; simpl; rewrite E; [reflexivity|].
    now rewrite IH.
Qed.

Lemma keys_setitem d k v k' :
  In k' (Dict.keys (Dict.setitem d k v)) <-> k' = k \/ In k' (Dict.keys d).
Proof.
  induction d as [|[k0 v0] d IH]; simpl.
  - intuition congruence.
  - destruct (Str.eqb k0 k) eqn:E; simpl.
    + apply eqb_eq in E; subst k0. intuition congruence.
    + unfold Dict.keys in IH. rewrite IH. intuition congruence.
Qed.

Lemma keys_setitem_NoDup d k v :
  NoDup (Dict.keys d) -> NoDup (Dict.keys (Dict.setitem d k v)).
Proof.
  induction d as [|[k0 v0] d IH]; simpl; intros Hnd.
  - constructor; [intros []|constructor].
  - inversion Hnd as [|? ? Hnot Hd]; subst.
    destruct (Str.eqb k0 k) eqn:E; simpl.
    + constructor; assumption.
    + constructor; [|apply IH; exact Hd].
      intros Hin. apply keys_setitem in Hin. destruct Hin as [->|Hin].
      * rewrite eqb_refl in E; discriminate.
      * contradiction.
Qed.

Lemma lookup_app (d1 d2 : dict V) k :
  Dict.lookup (d1 ++ d2) k =
  match Dict.lookup d1 k with
  | Some v => Some v
  | None => Dict.lookup d2 k
  end.
Proof.
  induction d1 as [|[k0 v0] d1 IH]; simpl; [reflexivity|].
  destruct (Str.eqb k0 k); auto.
Qed.

Lemma lookup_fold (entries : list (str * V)) d k :
  Dict.lookup (fold_left Dict.assign entries d) k =
  match Dict.lookup (rev entries) k with
  | Some v => Some v
  | None => Dict.lookup d k
  end.
Proof.
  revert d; induction entries as [|[k0 v0] entries IH]; intros d;
    [reflexivity|].
  simpl fold_left. rewrite IH. simpl rev. rewrite lookup_app.
  destruct (Dict.lookup (rev entries) k); [reflexivity|].
  unfold Dict.assign; simpl.
  destruct (Str.eqb k0 k) eqn:E.
  - apply eqb_eq in E; subst. apply lookup_setitem_same.
  - apply lookup_setitem_other. now apply eqb_neq.
Qed.

(** A display with a repeated key keeps the value written last. *)
Lemma lookup_literal (entries : list (str * V)) k :
  Dict.lookup (Dict.literal entries) k = Dict.lookup (rev entries) k.
Proof.
  unfold Dict.literal. rewrite lookup_fold.
  destruct (Dict.lookup (rev entries) k); reflexivity.
Qed.

Lemma keys_fold (entries : list (str * V)) d k :
  In k (Dict.keys (fold_left Dict.assign entries d)) <->
  In k (List.map fst entries) \/ In k (Dict.keys d).
Proof.
  revert d; induction entries as [|[k0 v0] entries IH]; intros d; simpl.
  - intuition.
  - rewrite IH.
    change (Dict.assign d (k0, v0)) with (Dict.setitem d k0 v0).
    rewrite keys_setitem. intuition congruence.
Qed.

(** Every key written in a display is a key of its value. *)
Lemma keys_literal (entries : list (str * V)) k :
  In k (Dict.keys (Dict.literal entries)) <-> In k (List.map fst entries).
Proof.
  unfold Dict.literal. rewrite keys_fold. simpl. intuition.
Qed.

Lemma keys_fold_NoDup (entries : list (str * V)) d :
  NoDup (Dict.keys d) -> NoDup (Dict.keys (fold_left Dict.assign entries d)).
Proof.
  revert d; induction entries as [|kv entries IH]; intros d Hd; simpl;
    [exact Hd|].
  apply IH. unfold Dict.assign. now apply keys_setitem_NoDup.
Qed.

(** ... and is a key of it once. *)
Lemma keys_literal_NoDup (entries : list (str * V)) :
  NoDup (Dict.keys (Dict.literal entries)).
Proof. apply keys_fold_NoDup. constructor. Qed.

End WithValues.

End DictFacts.

(** ** The default query structure *)

(** C7. The display defining [DEFAULT_QUERY_STRUCTURE] writes the key
    [cumCasesBySpecimenDateRate] twice (its 8th and 10th entries). The
    dictionary it evaluates to holds that key once, bound to the value of
    the later entry; more generally every key is bound to the value
    written last for it, every key of the display is a key of the
    dictionary, no key is held twice, and the 35 entries give 34 keys.
    Building the dictionary is a total function: nothing is raised. *)
Theorem DEFAULT_QUERY_STRUCTURE_last_key_wins :
  let key := lit "cumCasesBySpecimenDateRate" in
  let written := List.map fst DEFAULT_QUERY_STRUCTURE_entries in
  DEFAULT_QUERY_STRUCTURE = Dict.literal DEFAULT_QUERY_STRUCTURE_entries
  /\ occurrences key written = 2
  /\ option_map fst (nth_error DEFAULT_QUERY_STRUCTURE_entries 7) = Some key
  /\ option_map fst (nth_error DEFAULT_QUERY_STRUCTURE_entries 9) = Some key
  /\ occurrences key (Dict.keys DEFAULT_QUERY_STRUCTURE) = 1
  /\ option_map snd (nth_error DEFAULT_QUERY_STRUCTURE_entries 9)
     = Dict.lookup DEFAULT_QUERY_STRUCTURE key
  /\ Dict.lookup DEFAULT_QUERY_STRUCTURE key
     = Some (SStr (lit "cumCasesBySpecimenDateRate"))
  /\ (forall k, Dict.lookup DEFAULT_QUERY_STRUCTURE k
                = Dict.lookup (rev DEFAULT_QUERY_STRUCTURE_entries) k)
  /\ incl written (Dict.keys DEFAULT_QUERY_STRUCTURE)
  /\ NoDup (Dict.keys DEFAULT_QUERY_STRUCTURE)
  /\ List.length DEFAULT_QUERY_STRUCTURE_entries = 35
  /\ List.length DEFAULT_QUERY_STRUCTURE = 34.
Proof.
  intros key written.
  assert (Hdef : DEFAULT_QUERY_STRUCTURE
                 = Dict.literal DEFAULT_QUERY_STRUCTURE_entries)
    by (vm_compute; reflexivity).
  split; [exact Hdef|].
  do 6 (split; [vm_compute; reflexivity|]).
  split; [intros k; rewrite Hdef; apply DictFacts.lookup_literal|].
  split; [intros k Hk; rewrite Hdef; now apply DictFacts.keys_literal|].
  split; [rewrite Hdef; apply DictFacts.keys_literal_NoDup|].
  split; vm_compute; reflexivity.
Qed.

(** ** The pagination loop *)

Module LoopFacts.

Import StrFacts DictFacts.

(** Case analysis along the body: the tests first, then each call that
    can raise, in the order of the source. *)
Ltac body_cases :=
  unfold loop_body, of_result;
  repeat match goal with
         | |- context [bind ?m _] => destruct m eqn:?; cbn [bind]
         | |- context [if ?b then _ else _] => destruct b eqn:?
         end.

Lemma loop_body_continue as_csv st response st' :
  loop_body as_csv st response = Continue st' ->
  api_params st' = api_params st
  /\ page_number st' = (page_number st + 1)%Z.
Proof.
  body_cases; intros H; inversion H; subst; simpl; auto.
Qed.

(** Only the status check raises a [RuntimeError]. *)
Lemma loop_body_runtime_error as_csv st response msg :
  loop_body as_csv st response = Raise (RuntimeError msg) ->
  (status_code response >= HTTPStatus.BAD_REQUEST)%Z
  /\ msg = lit "Request failed: " ++ text response.
Proof.
  unfold loop_body.
  destruct (status_code response >=? HTTPStatus.BAD_REQUEST)%Z eqn:E.
  - intros H; inversion H; split; [|reflexivity].
    apply Z.geb_le in E. lia.
  - revert E. body_cases; intros _ H; try discriminate H.
    all: inversion H; subst.
    all: repeat match goal with
         | E : lift ?m = inl _ |- _ => destruct m; simpl in E
         | E : py_getitem ?v _ = inl _ |- _ =>
             unfold py_getitem, raise, ret in E; destruct v
         | E : py_iter ?v = inl _ |- _ =>
             unfold py_iter, raise, ret in E; destruct v
         | E : match ?x with _ => _ end = inl _ |- _ => destruct x
         end; discriminate.
Qed.

Lemma loop_body_error as_csv st response :
  (status_code response >= HTTPStatus.BAD_REQUEST)%Z ->
  loop_body as_csv st response
  = Raise (RuntimeError (lit "Request failed: " ++ text response)).
Proof.
  intros H. unfold loop_body.
  destruct (status_code response >=? HTTPStatus.BAD_REQUEST)%Z eqn:E;
    [reflexivity|].
  rewrite Z.geb_leb in E. apply Z.leb_gt in E. lia.
Qed.

Lemma loop_body_no_content as_csv st response :
  status_code response = HTTPStatus.NO_CONTENT ->
  loop_body as_csv st response = Break st.
Proof. intros H. unfold loop_body. rewrite H. reflexivity. Qed.

(** With a data status the body goes straight to the branch of the
    format. *)
Lemma loop_body_data_status as_csv st response :
  data_status response = true ->
  loop_body as_csv st response
  = loop_body as_csv st
      {| status_code := 200; text := text response;
         content_decode := content_decode response;
         json := json response |}.
Proof.
  unfold data_status, loop_body. simpl status_code.
  rewrite andb_true_iff, negb_true_iff, Z.ltb_lt.
  intros [Hlt ->].
  destruct (status_code response >=? HTTPStatus.BAD_REQUEST)%Z eqn:E.
  - rewrite Z.geb_leb in E. apply Z.leb_le in E. lia.
  - reflexivity.
Qed.

Lemma while_true_nil as_csv st :
  while_true as_csv [] st
  = {| outcome := Pending;
       requests := [request_for (api_params st) (page_number st)] |}.
Proof. reflexivity. Qed.

Lemma while_true_failure as_csv e server st :
  while_true as_csv (Failure e :: server) st
  = {| outcome := Raised (Propagated e);
       requests := [request_for (api_params st) (page_number st)] |}.
Proof. reflexivity. Qed.

Lemma while_true_answer as_csv response server st :
  while_true as_csv (Answer response :: server) st
  = match loop_body as_csv (turn st) response with
    | Continue st' =>
        sent (request_for (api_params st) (page_number st))
             (while_true as_csv server st')
    | Break st' =>
        {| outcome := after_loop as_csv st';
           requests := [request_for (api_params st) (page_number st)] |}
    | Raise e =>
        {| outcome := Raised e;
           requests := [request_for (api_params st) (page_number st)] |}
    end.
Proof. reflexivity. Qed.

Lemma request_for_turn base page page' :
  request_for (Dict.setitem base (lit "page") (PyInt page)) page'
  = request_for base page'.
Proof. unfold request_for. now rewrite setitem_setitem. Qed.

(** The requests of a call are those for consecutive pages, from the page
    the loop starts with, all built on the parameters it starts with. *)
Lemma requests_while_true as_csv server : forall st,
  requests (while_true as_csv server st)
  = List.map (fun i => request_for (api_params st)
                         (page_number st + Z.of_nat i))
      (seq 0 (List.length (requests (while_true as_csv server st)))).
Proof.
  induction server as [|reply server IH]; intros st.
  - rewrite while_true_nil. simpl. now rewrite Z.add_0_r.
  - destruct reply as [response|e].
    + rewrite while_true_answer.
      destruct (loop_body as_csv (turn st) response) as [st'| |] eqn:E;
        simpl; rewrite ?Z.add_0_r; try reflexivity.
      f_equal. rewrite IH at 1.
      apply loop_body_continue in E. destruct E as [Hp Hn].
      rewrite <- seq_shift, map_map.
      apply map_ext. intros i.
      rewrite Hp, Hn. simpl api_params. simpl page_number.
      rewrite request_for_turn. f_equal. lia.
    + rewrite while_true_failure. simpl. now rewrite Z.add_0_r.
Qed.

Lemma requests_not_nil as_csv server st :
  requests (while_true as_csv server st) <> [].
Proof.
  destruct server as [|[response|e] server].
  - discriminate.
  - rewrite while_true_answer.
    destruct (loop_body as_csv (turn st) response); discriminate.
  - discriminate.
Qed.

(** A call that ends has sent one request per reply it read, so no more
    than the server holds. *)
Lemma requests_bounded as_csv server : forall st,
  outcome (while_true as_csv server st) <> Pending ->
  List.length (requests (while_true as_csv server st))
  <= List.length server.
Proof.
  induction server as [|reply server IH]; intros st.
  - simpl. congruence.
  - destruct reply as [response|e]; [|simpl; lia].
    rewrite while_true_answer.
    destruct (loop_body as_csv (turn st) response) as [st'| |];
      simpl; try lia.
    intros H. apply IH in H. lia.
Qed.

(** What the turn that reads the [k]-th reply does decides the call, unless
    the loop continues. *)
Lemma received_step as_csv server : forall st k response,
  received server (while_true as_csv server st) k response ->
  exists st_k,
    page_number st_k = (page_number st + Z.of_nat k)%Z
    /\ match loop_body as_csv st_k response with
       | Continue _ =>
           S k < List.length (requests (while_true as_csv server st))
       | Break st' =>
           outcome (while_true as_csv server st) = after_loop as_csv st'
           /\ List.length (requests (while_true as_csv server st)) = S k
       | Raise e =>
           outcome (while_true as_csv server st) = Raised e
           /\ List.length (requests (while_true as_csv server st)) = S k
       end.
Proof.
  unfold received.
  induction server as [|reply server IH]; intros st k response [Hnth Hk].
  - destruct k; discriminate.
  - destruct k as [|k].
    + simpl in Hnth. inversion Hnth; subst reply.
      exists (turn st). split; [simpl; lia|].
      rewrite while_true_answer.
      destruct (loop_body as_csv (turn st) response) as [st'| |] eqn:E;
        simpl; auto.
      pose proof (requests_not_nil as_csv server st').
      destruct (requests (while_true as_csv server st')); simpl;
        [congruence|lia].
    + simpl in Hnth.
      destruct reply as [r0|e]; [|simpl in Hk; lia].
      rewrite while_true_answer in *.
      destruct (loop_body as_csv (turn st) r0) as [st'| |] eqn:E;
        simpl in Hk; try lia.
      destruct (IH st' k response) as [st_k [Hpage Hstep]];
        [split; [exact Hnth|lia]|].
      exists st_k. split.
      * apply loop_body_continue in E. destruct E as [_ Hn].
        rewrite Hpage, Hn. simpl. lia.
      * destruct (loop_body as_csv st_k response); simpl;
          intuition (auto; lia).
Qed.

(** Replies the call never reads do not matter. *)
Lemma while_true_unread as_csv server unread : forall st,
  outcome (while_true as_csv server st) <> Pending ->
  while_true as_csv (server ++ unread) st = while_true as_csv server st.
Proof.
  induction server as [|reply server IH]; intros st.
  - simpl. congruence.
  - destruct reply as [response|e]; [|reflexivity].
    rewrite <- app_comm_cons, !while_true_answer.
    destruct (loop_body as_csv (turn st) response) as [st'| |];
      simpl; try reflexivity.
    intros H. now rewrite IH.
Qed.

End LoopFacts.

Module PageFacts.

Import StrFacts DictFacts LoopFacts.

Lemma data_status_spec response :
  data_status response = true <->
  (status_code response < 400)%Z /\ status_code response <> 204%Z.
Proof.
  unfold data_status, HTTPStatus.BAD_REQUEST, HTTPStatus.NO_CONTENT.
  rewrite andb_true_iff, negb_true_iff, Z.ltb_lt, Z.eqb_neq. tauto.
Qed.

Lemma data_status_checks response :
  data_status response = true ->
  (status_code response >=? HTTPStatus.BAD_REQUEST)%Z = false
  /\ (status_code response =? HTTPStatus.NO_CONTENT)%Z = false.
Proof.
  intros H. apply data_status_spec in H. destruct H as [Hlt Hne].
  split; [|now apply Z.eqb_neq].
  rewrite Z.geb_leb. apply Z.leb_gt. exact Hlt.
Qed.

Lemma loop_body_json_page st response recs next :
  data_status response = true ->
  json_fields response = Some (recs, next) ->
  loop_body false st response
  = (if is_None next then Break else Continue)
      {| api_params := api_params st;
         data := data st ++ recs;
         page_number := if is_None next then page_number st
                        else (page_number st + 1)%Z |}.
Proof.
  intros Hs Hf. apply data_status_checks in Hs. destruct Hs as [H1 H2].
  unfold loop_body. rewrite H1, H2.
  unfold json_fields in Hf.
  destruct (json response) as [e|[| | | | | |entries]]; try discriminate Hf.
  cbn [lift bind py_getitem].
  destruct (Dict.lookup entries (lit "data")) as [[| | | | |items|]|];
    try discriminate Hf.
  destruct (Dict.lookup entries (lit "pagination"))
    as [[| | | | | |pagination]|]; try discriminate Hf.
  cbn [ret bind py_iter py_getitem].
  destruct (Dict.lookup pagination (lit "next")) as [nxt|];
    try discriminate Hf.
  inversion Hf; subst. cbn [ret bind].
  destruct (is_None next); reflexivity.
Qed.

Lemma loop_body_csv_page st response body :
  data_status response = true ->
  content_decode response = inr body ->
  loop_body true st response
  = Continue {| api_params := api_params st;
                data := data st ++ [PyStr (csv_blob (page_number st) body)];
                page_number := page_number st + 1 |}.
Proof.
  intros Hs Hc. apply data_status_checks in Hs. destruct Hs as [H1 H2].
  unfold loop_body, csv_blob. rewrite H1, H2, Hc. cbn [lift bind ret].
  unfold of_result. destruct (page_number st >? 1)%Z; reflexivity.
Qed.

Lemma csv_page_spec body response :
  csv_page body response = true <->
  data_status response = true /\ content_decode response = inr body.
Proof.
  unfold csv_page. rewrite andb_true_iff.
  destruct (content_decode response) as [e|content].
  - split; intros [? ?]; discriminate.
  - rewrite eqb_eq. split; intros [? H]; split; congruence.
Qed.

Lemma py_strs_strings (ss : list str) :
  py_strs (List.map PyStr ss) = inr ss.
Proof.
  induction ss as [|s ss IH]; simpl; [reflexivity|]. now rewrite IH.
Qed.

End PageFacts.

(** ** The model at work *)

(** Two JSON pages: the second request is the last, the third reply is
    never asked for. *)
Example two_json_pages :
  let page1 := json_response [PyInt 1; PyInt 2] (PyStr (lit "page=2")) in
  let page2 := json_response [PyInt 3] PyNone in
  get_paginated_dataset [lit "areaType=nation"; lit "areaCode=E92000001"]
    [] false [Answer page1; Answer page2; Failure ConnectionError]
  = {| outcome := Returned (PyList [PyInt 1; PyInt 2; PyInt 3]);
       requests :=
         [ request_for
             (query_params [lit "areaType=nation"; lit "areaCode=E92000001"]
                [] false) 1;
           request_for
             (query_params [lit "areaType=nation"; lit "areaCode=E92000001"]
                [] false) 2 ] |}.
Proof. reflexivity. Qed.

(** CSV knows no last page: after the pages the loop asks once more and
    stops at the 204; while the server only sends pages the call goes
    on. *)
Example csv_needs_no_content :
  let page := text_response 200 (lit "a,b" ++ LF :: lit "1,2" ++ [LF]) in
  outcome (get_paginated_dataset [lit "areaType=region"] [] true
             [Answer page; Answer page])
  = Pending
  /\ outcome (get_paginated_dataset [lit "areaType=region"] [] true
                [Answer page; Answer page; Answer (text_response 204 [])])
     = Returned (PyStr (lit "a,b" ++ LF :: lit "1,2" ++ LF :: lit "1,2")).
Proof. split; reflexivity. Qed.

(** Whitespace goes at the ends of each page, so also around the row of a
    later page once its header is dropped, and not inside a page. *)
Example csv_pages_are_stripped :
  let page1 := text_response 200 (lit "a,b" ++ LF :: lit " 1,2 ") in
  let page2 := text_response 200 (lit "a,b" ++ LF :: lit " 3,4 ") in
  outcome (get_paginated_dataset [lit "areaType=region"] [] true
             [Answer page1; Answer page2; Answer (text_response 204 [])])
  = Returned (PyStr (lit "a,b" ++ LF :: lit " 1,2" ++ LF :: lit "3,4")).
Proof. reflexivity. Qed.

(** The characters [json.dumps] escapes. *)
Example dumps_escapes :
  Json.dumps (lit ",", lit ":") [(lit "k", SStr [233; 10; 128512; 65]%N)]
  = lit "{" ++ QUOTE :: lit "k" ++ QUOTE :: lit ":" ++ QUOTE
    :: BACKSLASH :: lit "u00e9" ++ BACKSLASH :: lit "n"
    ++ BACKSLASH :: lit "ud83d" ++ BACKSLASH :: lit "ude00A"
    ++ QUOTE :: lit "}".
Proof. reflexivity. Qed.

(** ** The properties of the specification *)

Import StrFacts DictFacts LoopFacts PageFacts.

Lemma json_page_inv last response :
  json_page last response = true ->
  data_status response = true
  /\ exists next, json_fields response = Some (records response, next)
                  /\ is_None next = last.
Proof.
  unfold json_page, records. rewrite andb_true_iff. intros [Hs Hf].
  split; [exact Hs|].
  destruct (json_fields response) as [[recs next]|]; [|discriminate].
  exists next. split; [reflexivity|]. now apply eqb_prop.
Qed.

Lemma while_true_chained (pages : list Response) (unread : list Reply) :
  forall st,
    chained pages = true ->
    outcome (while_true false (List.map Answer pages ++ unread) st)
    = Returned (PyList (data st ++ flat_map records pages))
    /\ List.length
         (requests (while_true false (List.map Answer pages ++ unread) st))
       = List.length pages.
Proof.
  induction pages as [|page rest IH]; intros st Hc; [discriminate|].
  rewrite map_cons, <- app_comm_cons, while_true_answer.
  destruct rest as [|page' rest].
  - apply json_page_inv in Hc. destruct Hc as [Hs [next [Hf Hn]]].
    rewrite (loop_body_json_page _ _ Hs Hf), Hn. simpl.
    rewrite app_nil_r. auto.
  - change (chained (page :: page' :: rest))
      with (json_page false page && chained (page' :: rest)) in Hc.
    apply andb_true_iff in Hc. destruct Hc as [Hp Hrest].
    apply json_page_inv in Hp. destruct Hp as [Hs [next [Hf Hn]]].
    rewrite (loop_body_json_page _ _ Hs Hf), Hn.
    match goal with
    | |- context [while_true false _ ?s] =>
        destruct (IH s Hrest) as [Hout Hlen]
    end.
    unfold sent. cbn [outcome requests List.length]. rewrite Hout, Hlen.
    cbn [data turn].
    change (flat_map records (page :: page' :: rest))
      with (records page ++ flat_map records (page' :: rest)).
    rewrite <- app_assoc. auto.
Qed.

(** C1. In JSON mode, when the server answers with [N >= 1] pages chained
    through [pagination.next], the last of them with a null [next], the
    call returns the [data] lists of the pages concatenated in page order
    and sends exactly [N] requests, whatever the server would have said
    after the last page. *)
Theorem json_pages_concatenated
    (filters : FiltersType) (structure : StructureType)
    (pages : list Response) (unread : list Reply) :
  chained pages = true ->
  let run := get_paginated_dataset filters structure false
               (List.map Answer pages ++ unread) in
  outcome run = Returned (PyList (flat_map records pages))
  /\ List.length (requests run) = List.length pages.
Proof.
  intros Hc run. subst run. unfold get_paginated_dataset.
  match goal with
  | |- context [while_true false _ ?s] =>
      destruct (while_true_chained pages unread s Hc) as [Hout Hlen]
  end.
  rewrite Hout, Hlen. auto.
Qed.

Lemma json_pages_concatenated_witness :
  let pages := [ json_response [PyInt 1; PyInt 2] (PyStr (lit "/v1/data?page=2"));
                 json_response [PyInt 3] PyNone ] in
  let run := get_paginated_dataset [lit "areaType=region"]
               DEFAULT_QUERY_STRUCTURE false
               (List.map Answer pages ++ [Failure ConnectionError]) in
  chained pages = true
  /\ outcome run = Returned (PyList [PyInt 1; PyInt 2; PyInt 3])
  /\ List.length (requests run) = 2.
Proof.
  split; [reflexivity|].
  apply (@json_pages_concatenated [lit "areaType=region"]
           DEFAULT_QUERY_STRUCTURE
           [ json_response [PyInt 1; PyInt 2] (PyStr (lit "/v1/data?page=2"));
             json_response [PyInt 3] PyNone ]
           [Failure ConnectionError]).
  reflexivity.
Defined.

Lemma trimmed_inv (s : str) :
  trimmed s = true ->
  (exists c rest, s = c :: rest /\ isspace c = false)
  /\ (exists init z, s = init ++ [z] /\ isspace z = false).
Proof.
  destruct s as [|c rest]; [discriminate|].
  unfold trimmed. rewrite andb_true_iff, !negb_true_iff. intros [Hc Hz].
  split; [now exists c, rest|].
  destruct (@exists_last _ (c :: rest)) as [init [z Hs]]; [discriminate|].
  exists init, z. split; [exact Hs|].
  rewrite Hs in Hz. now rewrite last_last in Hz.
Qed.

Lemma strip_trimmed (s ws : str) :
  trimmed s = true -> forallb isspace ws = true -> strip (s ++ ws) = s.
Proof.
  intros Hs Hws. apply trimmed_inv in Hs.
  destruct Hs as [[c [rest [Hc Hsp]]] [init [z [Hz Hzsp]]]].
  unfold strip.
  replace (lstrip (s ++ ws)) with (s ++ ws)
    by (rewrite Hc; simpl; now rewrite Hsp).
  rewrite rstrip_spaces by exact Hws.
  rewrite Hz. now apply rstrip_keeps.
Qed.

(** Whitespace is removed only at the ends of a page: what stands before
    trimmed text stays. *)
Lemma strip_headed (c : char) (head s ws : str) :
  isspace c = false -> trimmed s = true -> forallb isspace ws = true ->
  strip (c :: head ++ s ++ ws) = c :: head ++ s.
Proof.
  intros Hc Hs Hws. apply trimmed_inv in Hs.
  destruct Hs as [_ [init [z [Hz Hzsp]]]].
  unfold strip. rewrite lstrip_keeps by exact Hc.
  change (c :: head ++ s ++ ws) with ((c :: head) ++ s ++ ws).
  rewrite app_assoc, rstrip_spaces by exact Hws.
  rewrite Hz, app_assoc. rewrite rstrip_keeps by exact Hzsp.
  now rewrite <- app_assoc.
Qed.

Lemma csv_blob_first (body : str) : csv_blob 1 body = strip body.
Proof. reflexivity. Qed.

Lemma csv_blob_later (page : Z) (header rest : str) :
  (page > 1)%Z -> ~ In LF header ->
  csv_blob page (header ++ LF :: rest) = strip rest.
Proof.
  intros Hp Hh. unfold csv_blob.
  replace (page >? 1)%Z with true by (symmetry; apply Z.gtb_lt; lia).
  now rewrite drop_first_line.
Qed.

Lemma while_true_csv_pages (bodies : list str) :
  forall (pages : list Response) (stop : Response) (unread : list Reply)
         (kept : list str) (st : LoopState),
    csv_pages bodies pages = true ->
    status_code stop = HTTPStatus.NO_CONTENT ->
    data st = List.map PyStr kept ->
    let run := while_true true
                 (List.map Answer pages ++ Answer stop :: unread) st in
    outcome run
    = Returned (PyStr (Str.join [LF]
                         (kept ++ csv_blobs (page_number st) bodies)))
    /\ List.length (requests run) = S (List.length pages).
Proof.
  induction bodies as [|body bodies IH];
    intros [|page pages] stop unread kept st Hp Hstop Hdata;
    try discriminate Hp.
  - cbn zeta. rewrite app_nil_l, while_true_answer.
    rewrite loop_body_no_content by exact Hstop.
    cbn [outcome requests List.length].
    unfold after_loop, py_str_join. cbn [negb turn data csv_blobs].
    rewrite Hdata, py_strs_strings, app_nil_r. auto.
  - cbn zeta. simpl in Hp. apply andb_true_iff in Hp.
    destruct Hp as [Hpage Hrest]. apply csv_page_spec in Hpage.
    destruct Hpage as [Hs Hc].
    rewrite map_cons, <- app_comm_cons, while_true_answer.
    rewrite (loop_body_csv_page _ _ Hs Hc).
    unfold sent. cbn [outcome requests List.length turn data page_number
                      api_params].
    specialize (IH pages stop unread
                  (kept ++ [csv_blob (page_number st) body])).
    match goal with
    | |- context [while_true true _ ?s] =>
        destruct (IH s Hrest Hstop) as [Hout Hlen]
    end.
    + cbn [data]. rewrite Hdata, map_app. reflexivity.
    + cbn [page_number] in Hout. rewrite Hout, Hlen.
      rewrite <- app_assoc. auto.
Qed.

Lemma one_line_spec (s : str) : one_line s = true -> ~ In LF s.
Proof.
  unfold one_line. rewrite negb_true_iff. intros H Hin.
  assert (existsb (N.eqb LF) s = true) as E; [|congruence].
  apply existsb_exists. exists LF. split; [exact Hin|apply N.eqb_refl].
Qed.

Lemma csv_blobs_later (later : list (str * str)) : forall page,
  (page > 1)%Z ->
  forallb (fun p => one_line (fst p)) later = true ->
  csv_blobs page (List.map with_header later)
  = List.map (fun p => strip (snd p)) later.
Proof.
  induction later as [|[header rest] later IH]; intros page Hp Hl;
    [reflexivity|].
  simpl in Hl. apply andb_true_iff in Hl. destruct Hl as [Hh Hl].
  simpl. unfold with_header at 1. simpl fst; simpl snd.
  rewrite csv_blob_later by (auto using one_line_spec).
  rewrite IH by (auto; lia). reflexivity.
Qed.

(** C2. In CSV mode, two pages that each hold the header [a,b] and one
    data row (a row being text without whitespace at its ends; the page
    may end in whitespace such as a final line feed), followed by a 204
    response, give the string [a,b\n<row1>\n<row2>] after exactly three
    requests. More generally every page after the first loses its first
    line: for a first page and any number of later pages, each a header
    line followed by more text, then a 204 response, the call returns the
    stripped first page and the stripped headerless later pages joined by
    line feeds, after one request more than there are pages. *)
Theorem csv_pages_joined
    (filters : FiltersType) (structure : StructureType) :
  (forall (row1 row2 end1 end2 : str) (page1 page2 stop : Response)
          (unread : list Reply),
      trimmed row1 = true -> trimmed row2 = true ->
      forallb isspace end1 = true -> forallb isspace end2 = true ->
      csv_page (lit "a,b" ++ LF :: row1 ++ end1) page1 = true ->
      csv_page (lit "a,b" ++ LF :: row2 ++ end2) page2 = true ->
      status_code stop = HTTPStatus.NO_CONTENT ->
      let run := get_paginated_dataset filters structure true
                   (Answer page1 :: Answer page2 :: Answer stop :: unread) in
      outcome run = Returned (PyStr (lit "a,b" ++ LF :: row1 ++ LF :: row2))
      /\ List.length (requests run) = 3)
  /\ (forall (first : str) (later : list (str * str))
             (pages : list Response) (stop : Response)
             (unread : list Reply),
         csv_pages (first :: List.map with_header later) pages = true ->
         forallb (fun p => one_line (fst p)) later = true ->
         status_code stop = HTTPStatus.NO_CONTENT ->
         let run := get_paginated_dataset filters structure true
                      (List.map Answer pages ++ Answer stop :: unread) in
         outcome run
         = Returned (PyStr (Str.join [LF]
                              (strip first
                               :: List.map (fun p => strip (snd p)) later)))
         /\ List.length (requests run) = S (List.length pages)).
Proof.
  assert (General :
    forall (first : str) (later : list (str * str))
           (pages : list Response) (stop : Response) (unread : list Reply),
      csv_pages (first :: List.map with_header later) pages = true ->
      forallb (fun p => one_line (fst p)) later = true ->
      status_code stop = HTTPStatus.NO_CONTENT ->
      let run := get_paginated_dataset filters structure true
                   (List.map Answer pages ++ Answer stop :: unread) in
      outcome run
      = Returned (PyStr (Str.join [LF]
                           (strip first
                            :: List.map (fun p => strip (snd p)) later)))
      /\ List.length (requests run) = S (List.length pages)).
  { intros first later pages stop unread Hp Hl Hstop run. subst run.
    unfold get_paginated_dataset.
    match goal with
    | |- context [while_true true _ ?s] =>
        destruct (@while_true_csv_pages _ pages stop unread [] s Hp Hstop
                    eq_refl) as [Hout Hlen]
    end.
    rewrite Hout, Hlen. split; [|reflexivity].
    cbn [page_number csv_blobs app]. rewrite csv_blob_first.
    rewrite csv_blobs_later by (auto; lia). reflexivity. }
  split; [|exact General].
  intros row1 row2 end1 end2 page1 page2 stop unread
         Hr1 Hr2 He1 He2 Hp1 Hp2 Hstop.
  destruct (General (lit "a,b" ++ LF :: row1 ++ end1)
              [(lit "a,b", row2 ++ end2)] [page1; page2] stop unread)
    as [Hout Hlen]; try assumption.
  - cbn [csv_pages List.map]. unfold with_header. cbn [fst snd].
    now rewrite Hp1, Hp2.
  - reflexivity.
  - cbn zeta. cbn [List.map app] in Hout, Hlen. rewrite Hout, Hlen.
    split; [|reflexivity].
    cbn [List.map snd]. rewrite (strip_trimmed _ _ Hr2 He2).
    change (lit "a,b" ++ LF :: row1 ++ end1)
      with (97%N :: [44; 98; 10]%N ++ row1 ++ end1).
    rewrite strip_headed by (auto; reflexivity).
    reflexivity.
Qed.

Lemma csv_pages_joined_witness :
  let page1 := text_response 200 (lit "a,b" ++ LF :: lit "1,2" ++ [LF]) in
  let page2 := text_response 200 (lit "a,b" ++ LF :: lit "3,4" ++ [LF]) in
  let stop := text_response 204 [] in
  let run := get_paginated_dataset [lit "areaType=region"]
               DEFAULT_QUERY_STRUCTURE true
               [Answer page1; Answer page2; Answer stop] in
  outcome run
  = Returned (PyStr (lit "a,b" ++ LF :: lit "1,2" ++ LF :: lit "3,4"))
  /\ List.length (requests run) = 3.
Proof.
  intros page1 page2 stop.
  apply (proj1 (csv_pages_joined [lit "areaType=region"]
                  DEFAULT_QUERY_STRUCTURE)
           (lit "1,2") (lit "3,4") [LF] [LF] page1 page2 stop []);
    reflexivity.
Defined.

(** C3. In either format, when a response the call receives has a status
    of 400 or more, the call raises the [RuntimeError] of the status
    check, whose message is ["Request failed: "] followed by the text of
    that response; the request that response answers is the last one
    sent, and nothing is returned: what earlier pages gave is lost. *)
Theorem error_status_aborts
    (filters : FiltersType) (structure : StructureType) (as_csv : bool)
    (server : list Reply) (k : nat) (response : Response) :
  let run := get_paginated_dataset filters structure as_csv server in
  received server run k response ->
  (status_code response >= 400)%Z ->
  outcome run
  = Raised (RuntimeError (lit "Request failed: " ++ text response))
  /\ List.length (requests run) = S k
  /\ forall v, outcome run <> Returned v.
Proof.
  intros run Hrec Hst. subst run. unfold get_paginated_dataset in *.
  apply received_step in Hrec. destruct Hrec as [st_k [_ Hstep]].
  rewrite loop_body_error in Hstep by exact Hst.
  destruct Hstep as [Hout Hlen]. rewrite Hout, Hlen.
  repeat split. discriminate.
Qed.

Lemma error_status_aborts_witness :
  let page := json_response [PyInt 1] (PyStr (lit "/v1/data?page=2")) in
  let failed := text_response 404 (lit "Not Found") in
  let server := [Answer page; Answer failed; Answer page] in
  let run := get_paginated_dataset [lit "areaType=region"]
               DEFAULT_QUERY_STRUCTURE false server in
  outcome run = Raised (RuntimeError (lit "Request failed: Not Found"))
  /\ List.length (requests run) = 2
  /\ forall v, outcome run <> Returned v.
Proof.
  intros page failed server.
  apply (@error_status_aborts [lit "areaType=region"]
           DEFAULT_QUERY_STRUCTURE false server 1 failed).
  - split; [reflexivity|]. vm_compute. lia.
  - vm_compute. discriminate.
Defined.

(** C4. When the first response has status 204 the call ends well after
    that one request and returns the empty result of its format: the
    empty list in JSON, the empty string in CSV. *)
Theorem no_content_first
    (filters : FiltersType) (structure : StructureType) (as_csv : bool)
    (response : Response) (unread : list Reply) :
  status_code response = 204%Z ->
  let run := get_paginated_dataset filters structure as_csv
               (Answer response :: unread) in
  outcome run = Returned (if as_csv then PyStr [] else PyList [])
  /\ List.length (requests run) = 1.
Proof.
  intros Hst run. subst run. unfold get_paginated_dataset.
  rewrite while_true_answer, loop_body_no_content by exact Hst.
  destruct as_csv; split; reflexivity.
Qed.

Lemma no_content_first_witness :
  let run (as_csv : bool) :=
    get_paginated_dataset [lit "areaType=region"] DEFAULT_QUERY_STRUCTURE
      as_csv [Answer (text_response 204 []); Failure ReadTimeout] in
  (outcome (run false) = Returned (PyList [])
   /\ List.length (requests (run false)) = 1)
  /\ (outcome (run true) = Returned (PyStr [])
      /\ List.length (requests (run true)) = 1).
Proof.
  intros run. split.
  - apply (@no_content_first [lit "areaType=region"]
             DEFAULT_QUERY_STRUCTURE false (text_response 204 [])
             [Failure ReadTimeout]).
    reflexivity.
  - apply (@no_content_first [lit "areaType=region"]
             DEFAULT_QUERY_STRUCTURE true (text_response 204 [])
             [Failure ReadTimeout]).
    reflexivity.
Defined.

Lemma loop_body_json_defect st response e :
  data_status response = true ->
  json_defect response = Some e ->
  loop_body false st response = Raise e.
Proof.
  intros Hs Hd. apply data_status_checks in Hs. destruct Hs as [H1 H2].
  unfold loop_body. rewrite H1, H2. unfold json_defect in Hd.
  destruct (json response) as [e0|[| | | | | |entries]];
    cbn [lift bind py_getitem raise of_result]; try congruence.
  destruct (Dict.lookup entries (lit "data")) as [page_data|];
    cbn [ret raise bind of_result]; [|congruence].
  destruct page_data; cbn [py_iter ret raise bind of_result];
    try congruence.
  all: destruct (Dict.lookup entries (lit "pagination"))
         as [[| | | | | |pagination]|];
       cbn [ret raise bind of_result py_getitem]; try congruence.
  all: destruct (Dict.lookup pagination (lit "next"));
       cbn [ret raise bind of_result]; congruence.
Qed.

(** C8. In JSON mode, when a page the call receives (a response with a
    status below 400 other than 204) has a body that does not parse, or
    parses to a value without the ["data"] key, without the
    ["pagination"] key or without ["next"] inside it, the call ends with
    the exception of that parse or lookup, as it was raised: the parser's
    own exception, or the [KeyError] of the missing key. That is never
    the [RuntimeError] of the status check, nothing is returned, and no
    request follows. *)
Theorem malformed_json_propagates
    (filters : FiltersType) (structure : StructureType)
    (server : list Reply) (k : nat) (response : Response) (e : PyExn) :
  let run := get_paginated_dataset filters structure false server in
  received server run k response ->
  (status_code response < 400)%Z ->
  status_code response <> 204%Z ->
  json_defect response = Some e ->
  outcome run = Raised e
  /\ List.length (requests run) = S k
  /\ (forall msg, e <> RuntimeError msg)
  /\ (forall err, json response = inl err -> e = Propagated err)
  /\ (forall entries, json response = inr (PyDict entries) ->
        Dict.lookup entries (lit "data") = None ->
        e = KeyError (lit "data"))
  /\ (forall entries recs, json response = inr (PyDict entries) ->
        Dict.lookup entries (lit "data") = Some (PyList recs) ->
        Dict.lookup entries (lit "pagination") = None ->
        e = KeyError (lit "pagination"))
  /\ (forall entries recs pagination,
        json response = inr (PyDict entries) ->
        Dict.lookup entries (lit "data") = Some (PyList recs) ->
        Dict.lookup entries (lit "pagination") = Some (PyDict pagination) ->
        Dict.lookup pagination (lit "next") = None ->
        e = KeyError (lit "next")).
Proof.
  intros run Hrec Hlt Hne Hd. subst run.
  assert (Hs : data_status response = true)
    by (apply data_status_spec; auto).
  unfold get_paginated_dataset in *.
  apply received_step in Hrec. destruct Hrec as [st_k [_ Hstep]].
  rewrite (loop_body_json_defect _ _ Hs Hd) in Hstep.
  destruct Hstep as [Hout Hlen].
  split; [exact Hout|]. split; [exact Hlen|].
  unfold json_defect in Hd.
  split; [|split; [|split; [|split]]].
  - intros msg ->.
    destruct (json response) as [e0|[| | | | | |entries]];
      try discriminate Hd.
    destruct (Dict.lookup entries (lit "data")) as [[| | | | | |]|];
      try discriminate Hd.
    all: destruct (Dict.lookup entries (lit "pagination"))
           as [[| | | | | |pagination]|]; try discriminate Hd.
    all: destruct (Dict.lookup pagination (lit "next"));
         discriminate Hd.
  - intros err Hj. rewrite Hj in Hd. congruence.
  - intros entries Hj Hl. rewrite Hj, Hl in Hd. congruence.
  - intros entries recs Hj Hl Hp. rewrite Hj, Hl, Hp in Hd. congruence.
  - intros entries recs pagination Hj Hl Hp Hn.
    rewrite Hj, Hl, Hp, Hn in Hd. congruence.
Qed.

Lemma malformed_json_propagates_witness :
  let page := json_response [PyInt 1] (PyStr (lit "/v1/data?page=2")) in
  let broken :=
    {| status_code := 200; text := lit "{}"; content_decode := inr (lit "{}");
       json := inr (PyDict []) |} in
  let server := [Answer page; Answer broken; Answer page] in
  let run := get_paginated_dataset [lit "areaType=region"]
               DEFAULT_QUERY_STRUCTURE false server in
  outcome run = Raised (KeyError (lit "data"))
  /\ List.length (requests run) = 2.
Proof.
  intros page broken server.
  destruct (@malformed_json_propagates [lit "areaType=region"]
              DEFAULT_QUERY_STRUCTURE server 1 broken
              (KeyError (lit "data"))) as [Hout [Hlen _]].
  - split; [reflexivity|]. vm_compute. lia.
  - vm_compute. reflexivity.
  - vm_compute. discriminate.
  - reflexivity.
  - split; [exact Hout|exact Hlen].
Defined.

Lemma py_strs_error (items : list PyValue) (e : PyExn) :
  py_strs items = inl e -> e = TypeError.
Proof.
  induction items as [|item items IH]; simpl; [discriminate|].
  destruct item; try (unfold raise; congruence).
  destruct (py_strs items); simpl; [|discriminate].
  intros H. inversion H; subst. now apply IH.
Qed.

Lemma after_loop_runtime_error as_csv st msg :
  after_loop as_csv st <> Raised (RuntimeError msg).
Proof.
  unfold after_loop, py_str_join.
  destruct as_csv; simpl; [|discriminate].
  destruct (py_strs (data st)) eqn:E; simpl; [|discriminate].
  apply py_strs_error in E. subst. discriminate.
Qed.

(** A [RuntimeError] comes from a response with an error status. *)
Lemma runtime_error_received as_csv server : forall st msg,
  outcome (while_true as_csv server st) = Raised (RuntimeError msg) ->
  exists k response,
    received server (while_true as_csv server st) k response
    /\ (status_code response >= 400)%Z.
Proof.
  induction server as [|reply server IH]; intros st msg H.
  - discriminate H.
  - destruct reply as [response|e]; [|discriminate H].
    rewrite while_true_answer in *.
    destruct (loop_body as_csv (turn st) response) as [st'|st'|e] eqn:E.
    + destruct (IH st' msg H) as [k [r [[Hnth Hk] Hst]]].
      exists (S k), r. repeat split; auto; simpl; lia.
    + simpl in H. now apply after_loop_runtime_error in H.
    + simpl in H. inversion H; subst e.
      apply loop_body_runtime_error in E. destruct E as [Hst _].
      exists 0, response. repeat split; auto; simpl; lia.
Qed.

(** C10. The call raises the [RuntimeError] of the status check exactly
    when a response it receives has a status of 400 or more. A response
    with any status below 400 other than 204 (1xx and 3xx as much as 200)
    is a page of data: the body of the loop treats it as it treats the
    same response with status 200, a single such JSON page with a null
    [next] is returned as the result, and such a CSV page followed by a
    204 is returned stripped. *)
Theorem runtime_error_iff_error_status
    (filters : FiltersType) (structure : StructureType) :
  (forall (as_csv : bool) (server : list Reply),
      let run := get_paginated_dataset filters structure as_csv server in
      (exists msg, outcome run = Raised (RuntimeError msg))
      <-> (exists k response, received server run k response
                              /\ (status_code response >= 400)%Z))
  /\ (forall (as_csv : bool) (st : LoopState) (response : Response),
         (status_code response < 400)%Z ->
         status_code response <> 204%Z ->
         loop_body as_csv st response
         = loop_body as_csv st
             {| status_code := 200; text := text response;
                content_decode := content_decode response;
                json := json response |})
  /\ (forall (response : Response) (recs : list PyValue)
             (unread : list Reply),
         (status_code response < 400)%Z ->
         status_code response <> 204%Z ->
         json_fields response = Some (recs, PyNone) ->
         let run := get_paginated_dataset filters structure false
                      (Answer response :: unread) in
         outcome run = Returned (PyList recs)
         /\ List.length (requests run) = 1)
  /\ (forall (response stop : Response) (body : str)
             (unread : list Reply),
         (status_code response < 400)%Z ->
         status_code response <> 204%Z ->
         content_decode response = inr body ->
         status_code stop = 204%Z ->
         let run := get_paginated_dataset filters structure true
                      (Answer response :: Answer stop :: unread) in
         outcome run = Returned (PyStr (strip body))
         /\ List.length (requests run) = 2).
Proof.
  split; [|split; [|split]].
  - intros as_csv server run. subst run. unfold get_paginated_dataset.
    split.
    + intros [msg H]. now apply runtime_error_received in H.
    + intros [k [response [Hrec Hst]]].
      apply received_step in Hrec. destruct Hrec as [st_k [_ Hstep]].
      rewrite loop_body_error in Hstep by exact Hst.
      destruct Hstep as [Hout _]. eauto.
  - intros as_csv st response Hlt Hne.
    apply loop_body_data_status. apply data_status_spec. auto.
  - intros response recs unread Hlt Hne Hf run. subst run.
    assert (Hs : data_status response = true)
      by (apply data_status_spec; auto).
    unfold get_paginated_dataset.
    rewrite while_true_answer, (loop_body_json_page _ _ Hs Hf).
    split; reflexivity.
  - intros response stop body unread Hlt Hne Hc Hstop run. subst run.
    assert (Hs : data_status response = true)
      by (apply data_status_spec; auto).
    unfold get_paginated_dataset.
    rewrite while_true_answer, (loop_body_csv_page _ _ Hs Hc).
    rewrite while_true_answer, loop_body_no_content by exact Hstop.
    split; reflexivity.
Qed.

Lemma runtime_error_iff_error_status_witness :
  let moved :=
    {| status_code := 301;
       text := [];
       content_decode := inr (lit "a,b" ++ LF :: lit "1,2" ++ [LF]);
       json := inr (PyDict [ (lit "data", PyList [PyInt 7]);
                             (lit "pagination",
                              PyDict [(lit "next", PyNone)]) ]) |} in
  let json_run := get_paginated_dataset [lit "areaType=region"]
                    DEFAULT_QUERY_STRUCTURE false [Answer moved] in
  let csv_run := get_paginated_dataset [lit "areaType=region"]
                   DEFAULT_QUERY_STRUCTURE true
                   [Answer moved; Answer (text_response 204 [])] in
  (outcome json_run = Returned (PyList [PyInt 7])
   /\ List.length (requests json_run) = 1)
  /\ (outcome csv_run = Returned (PyStr (lit "a,b" ++ LF :: lit "1,2"))
      /\ List.length (requests csv_run) = 2).
Proof.
  intros moved.
  pose proof (@runtime_error_iff_error_status [lit "areaType=region"]
                DEFAULT_QUERY_STRUCTURE) as [_ [_ [Hjson Hcsv]]].
  split.
  - apply (Hjson moved [PyInt 7] []); vm_compute;
      try reflexivity; try discriminate.
  - apply (Hcsv moved (text_response 204 [])
             (lit "a,b" ++ LF :: lit "1,2" ++ [LF]) []); vm_compute;
      try reflexivity; try discriminate.
Defined.

(** ** The query parameters *)

Lemma requests_get_paginated_dataset filters structure as_csv server :
  let run := get_paginated_dataset filters structure as_csv server in
  requests run
  = List.map (fun i => request_for (query_params filters structure as_csv)
                         (1 + Z.of_nat i))
      (seq 0 (List.length (requests run))).
Proof.
  intros run. subst run. unfold get_paginated_dataset.
  apply requests_while_true.
Qed.

Lemma request_in_call filters structure as_csv server request :
  In request
     (requests (get_paginated_dataset filters structure as_csv server)) ->
  exists page,
    request = request_for (query_params filters structure as_csv) page.
Proof.
  rewrite requests_get_paginated_dataset. rewrite in_map_iff.
  intros [i [Hreq _]]. eauto.
Qed.

Module JsonFacts.

Lemma hex_digit_not_space (d : N) : (hex_digit d =? SPACE)%N = false.
Proof.
  apply N.eqb_neq. unfold hex_digit, SPACE.
  destruct (d <? 10)%N; lia.
Qed.

Lemma hex4_spaceless (n : N) : spaceless (hex4 n) = true.
Proof.
  unfold hex4, spaceless. simpl. now rewrite !hex_digit_not_space.
Qed.

Lemma spaceless_app (a b : str) :
  spaceless (a ++ b) = spaceless a && spaceless b.
Proof. apply forallb_app. Qed.

Lemma escape_char_spaceless (c : char) :
  (c =? SPACE)%N = false -> spaceless (Json.escape_char c) = true.
Proof.
  intros Hc. unfold Json.escape_char.
  repeat match goal with
         | |- context [if ?b then _ else _] => destruct b
         end;
    rewrite ?spaceless_app, ?hex4_spaceless; try reflexivity.
  unfold spaceless. simpl. now rewrite Hc.
Qed.

Lemma encode_basestring_spaceless (s : str) :
  spaceless s = true -> spaceless (Json.encode_basestring s) = true.
Proof.
  intros Hs. unfold Json.encode_basestring.
  rewrite !spaceless_app, andb_true_iff. split; [reflexivity|].
  rewrite andb_true_iff. split; [|reflexivity].
  induction s as [|c s IH]; [reflexivity|].
  simpl in Hs. apply andb_true_iff in Hs. destruct Hs as [Hc Hs].
  simpl. rewrite spaceless_app, IH by exact Hs.
  rewrite escape_char_spaceless; [reflexivity|].
  now apply negb_true_iff.
Qed.

Lemma join_spaceless (sep : str) (parts : list str) :
  spaceless sep = true -> forallb spaceless parts = true ->
  spaceless (Str.join sep parts) = true.
Proof.
  intros Hsep. induction parts as [|p parts IH]; [reflexivity|].
  simpl forallb. rewrite andb_true_iff. intros [Hp Hparts].
  destruct parts as [|q parts]; [exact Hp|].
  rewrite join_cons, !spaceless_app, Hp, Hsep. simpl. now apply IH.
Qed.

(** The compact separators put no space between the tokens: whatever
    space the output holds stands in a key or in a field name. *)
Lemma dumps_value_spaceless :
  forall v, spaceless_value v = true ->
            spaceless (Json.dumps_value (lit ",", lit ":") v) = true.
Proof.
  fix IH 1. intros [s|entries] Hv.
  - now apply encode_basestring_spaceless.
  - simpl in Hv. cbn [Json.dumps_value fst snd].
    rewrite !spaceless_app, andb_true_iff. split; [reflexivity|].
    rewrite andb_true_iff. split; [|reflexivity].
    apply join_spaceless; [reflexivity|].
    induction entries as [|[key field] entries IHe]; [reflexivity|].
    simpl in Hv. rewrite !andb_true_iff in Hv.
    destruct Hv as [[Hk Hf] Hrest].
    cbn [List.map forallb fst snd]. rewrite !spaceless_app.
    rewrite encode_basestring_spaceless by exact Hk.
    rewrite (IH field Hf), IHe by exact Hrest. reflexivity.
Qed.

End JsonFacts.

Import JsonFacts.

(** A call always sends a first request: the one for page 1 on the
    parameters of the call. *)
Lemma first_request filters structure as_csv server :
  exists later,
    requests (get_paginated_dataset filters structure as_csv server)
    = request_for (query_params filters structure as_csv) 1 :: later.
Proof.
  pose proof (requests_get_paginated_dataset filters structure as_csv server)
    as Hreq.
  cbn zeta in Hreq.
  pose proof (requests_not_nil as_csv server
                {| api_params := Dict.literal
                                   (query_params filters structure as_csv);
                   data := []; page_number := 1 |}) as Hne.
  change (while_true as_csv server _)
    with (get_paginated_dataset filters structure as_csv server) in Hne.
  destruct (requests (get_paginated_dataset filters structure as_csv server))
    as [|request later] eqn:E; [congruence|].
  simpl in Hreq. inversion Hreq. eauto.
Qed.

(** C5. A call sends at least one request, the first of them for page 1,
    and every request of the call carries as [filters] the filter strings
    joined by [;] in the order given, and as [structure] the structure
    written by [json.dumps] with the separators [,] and [:]: an opening
    brace, the entries as quoted key, colon, value, joined by commas, and
    a closing brace, so that the output holds no space unless a key or a
    field name does. Both are the same in all requests of the call. *)
Theorem fixed_query_parameters
    (filters : FiltersType) (structure : StructureType) (as_csv : bool)
    (server : list Reply) :
  let run := get_paginated_dataset filters structure as_csv server in
  let compact := Json.dumps (lit ",", lit ":") structure in
  1 <= List.length (requests run)
  /\ (exists first later,
        requests run = first :: later
        /\ Dict.lookup (params first) (lit "filters")
           = Some (PyStr (Str.join (lit ";") filters))
        /\ Dict.lookup (params first) (lit "structure")
           = Some (PyStr compact)
        /\ Dict.lookup (params first) (lit "page") = Some (PyInt 1))
  /\ Forall (fun request =>
               Dict.lookup (params request) (lit "filters")
               = Some (PyStr (Str.join (lit ";") filters))
               /\ Dict.lookup (params request) (lit "structure")
                  = Some (PyStr compact))
            (requests run)
  /\ compact
     = lit "{"
       ++ Str.join (lit ",")
            (List.map (fun kv => Json.encode_basestring (fst kv) ++ lit ":"
                                 ++ Json.dumps_value (lit ",", lit ":")
                                      (snd kv))
               structure)
       ++ lit "}"
  /\ (spaceless_value (SDict structure) = true -> spaceless compact = true)
  /\ Str.join (lit ";") [lit "areaType=nation"; lit "areaCode=E92000001"]
     = lit "areaType=nation;areaCode=E92000001".
Proof.
  intros run compact.
  destruct (first_request filters structure as_csv server) as [later Hfirst].
  fold run in Hfirst.
  split; [rewrite Hfirst; simpl; lia|].
  split.
  { exists (request_for (query_params filters structure as_csv) 1), later.
    split; [exact Hfirst|]. repeat split; reflexivity. }
  split; [|split; [|split]].
  - apply Forall_forall. intros request Hin.
    apply request_in_call in Hin. destruct Hin as [page ->].
    split; reflexivity.
  - reflexivity.
  - apply dumps_value_spaceless.
  - reflexivity.
Qed.

Lemma fixed_query_parameters_witness :
  let filters := [lit "areaType=nation"; lit "areaCode=E92000001"] in
  let structure := [ (lit "date", SStr (lit "date"));
                     (lit "cases",
                      SDict [(lit "new", SStr (lit "newCasesByPublishDate"))]) ]
  in
  let compact :=
    lit "{" ++ QUOTE :: lit "date" ++ QUOTE :: lit ":"
    ++ QUOTE :: lit "date" ++ QUOTE :: lit ","
    ++ QUOTE :: lit "cases" ++ QUOTE :: lit ":{"
    ++ QUOTE :: lit "new" ++ QUOTE :: lit ":"
    ++ QUOTE :: lit "newCasesByPublishDate" ++ QUOTE :: lit "}}" in
  let page1 := json_response [PyInt 1] (PyStr (lit "/v1/data?page=2")) in
  let page2 := json_response [PyInt 2] (PyStr (lit "/v1/data?page=3")) in
  let page3 := json_response [PyInt 3] PyNone in
  let run := get_paginated_dataset filters structure false
               [Answer page1; Answer page2; Answer page3] in
  List.length (requests run) = 3
  /\ 1 <= List.length (requests run)
  /\ Forall (fun request =>
               Dict.lookup (params request) (lit "filters")
               = Some (PyStr (lit "areaType=nation;areaCode=E92000001"))
               /\ Dict.lookup (params request) (lit "structure")
                  = Some (PyStr compact))
            (requests run)
  /\ spaceless compact = true.
Proof.
  intros filters structure compact page1 page2 page3 run.
  destruct (@fixed_query_parameters filters structure false
              [Answer page1; Answer page2; Answer page3])
    as [Hsome [_ [Hall [_ [Hspace _]]]]].
  split; [reflexivity|]. split; [exact Hsome|].
  split; [exact Hall|]. apply Hspace. reflexivity.
Defined.

(** C9. The requests of a call carry the page numbers 1, 2, 3, ... in
    that order: the request sent [k]-th (from 1) carries [page = k]; there
    is always a first request. *)
Theorem page_numbers_consecutive
    (filters : FiltersType) (structure : StructureType) (as_csv : bool)
    (server : list Reply) :
  let run := get_paginated_dataset filters structure as_csv server in
  List.map (fun request => Dict.lookup (params request) (lit "page"))
    (requests run)
  = List.map (fun k => Some (PyInt (Z.of_nat k)))
      (seq 1 (List.length (requests run)))
  /\ 1 <= List.length (requests run)
  /\ (forall k request,
        nth_error (requests run) k = Some request ->
        Dict.lookup (params request) (lit "page")
        = Some (PyInt (Z.of_nat (S k)))).
Proof.
  intros run.
  pose proof (requests_get_paginated_dataset filters structure as_csv server)
    as Hreq.
  cbn zeta in Hreq. fold run in Hreq.
  assert (Hpages :
    List.map (fun request => Dict.lookup (params request) (lit "page"))
      (requests run)
    = List.map (fun k => Some (PyInt (Z.of_nat k)))
        (seq 1 (List.length (requests run)))).
  { rewrite Hreq at 1. rewrite map_map, <- seq_shift, map_map.
    apply map_ext. intros i.
    replace (1 + Z.of_nat i)%Z with (Z.of_nat (S i)) by lia.
    reflexivity. }
  split; [exact Hpages|]. split.
  - pose proof (requests_not_nil as_csv server
                  {| api_params :=
                       Dict.literal
                         [ (lit "filters", PyStr (Str.join (lit ";") filters));
                           (lit "structure",
                            PyStr (Json.dumps (lit ",", lit ":") structure));
                           (lit "format",
                            PyStr (if negb as_csv then lit "json"
                                   else lit "csv")) ];
                     data := []; page_number := 1 |}) as Hne.
    fold (get_paginated_dataset filters structure as_csv server) in Hne.
    fold run in Hne. destruct (requests run); [congruence|simpl; lia].
  - intros k request Hk.
    assert (Hlt : k < List.length (requests run))
      by (apply nth_error_Some; congruence).
    rewrite Hreq, nth_error_map, nth_error_seq in Hk.
    apply Nat.ltb_lt in Hlt. rewrite Hlt in Hk. cbn [option_map] in Hk.
    assert (Hrequest :
      request = request_for (query_params filters structure as_csv)
                  (Z.of_nat (S k)))
      by (replace (Z.of_nat (S k)) with (1 + Z.of_nat (0 + k))%Z by lia;
          congruence).
    rewrite Hrequest. reflexivity.
Qed.

Lemma page_numbers_consecutive_witness :
  let page := json_response [PyInt 1] (PyStr (lit "/v1/data?page=2")) in
  let run := get_paginated_dataset [lit "areaType=region"]
               DEFAULT_QUERY_STRUCTURE false
               [Answer page; Answer page; Answer page] in
  List.length (requests run) = 4
  /\ Dict.lookup (params (nth 2 (requests run) (request_for [] 0)))
       (lit "page")
     = Some (PyInt 3).
Proof.
  intros page run. split; [reflexivity|].
  apply (proj2 (proj2
           (@page_numbers_consecutive [lit "areaType=region"]
              DEFAULT_QUERY_STRUCTURE false
              [Answer page; Answer page; Answer page])) 2).
  reflexivity.
Defined.

(** C6. [get_latest_data] without filters fetches with the one filter
    [areaType=region]; without a structure it fetches with
    [DEFAULT_QUERY_STRUCTURE] as it stands; arguments that are given are
    passed on; and in every case the format it asks for is JSON. *)
Theorem get_latest_data_defaults (server : list Reply) :
  get_latest_data None None server
  = get_paginated_dataset [lit "areaType=region"] DEFAULT_QUERY_STRUCTURE
      false server
  /\ (forall structure,
        get_latest_data None (Some structure) server
        = get_paginated_dataset [lit "areaType=region"] structure false
            server)
  /\ (forall filters,
        get_latest_data (Some filters) None server
        = get_paginated_dataset filters DEFAULT_QUERY_STRUCTURE false server)
  /\ (forall filters structure,
        get_latest_data (Some filters) (Some structure) server
        = get_paginated_dataset filters structure false server)
  /\ (forall filters structure,
        Forall (fun request =>
                  Dict.lookup (params request) (lit "format")
                  = Some (PyStr (lit "json")))
               (requests (get_latest_data filters structure server)))
  /\ Forall (fun request =>
               Dict.lookup (params request) (lit "filters")
               = Some (PyStr (lit "areaType=region"))
               /\ Dict.lookup (params request) (lit "structure")
                  = Some (PyStr (Json.dumps (lit ",", lit ":")
                                   DEFAULT_QUERY_STRUCTURE)))
            (requests (get_latest_data None None server)).
Proof.
  do 4 (split; [reflexivity|]). split.
  - intros filters structure. apply Forall_forall. intros request Hin.
    unfold get_latest_data in Hin.
    apply request_in_call in Hin. destruct Hin as [page ->]. reflexivity.
  - apply Forall_forall. intros request Hin.
    unfold get_latest_data in Hin.
    apply request_in_call in Hin. destruct Hin as [page ->].
    split; reflexivity.
Qed.

(** ** Further properties of the fetcher *)

(** X1. A call sends at least one request, and every request of a call
    goes to the one endpoint with a timeout of ten seconds and carries
    exactly the four parameters [filters], [structure], [format] and
    [page], in that order, the format being [csv] when [as_csv] is set and
    [json] when it is not. *)
Theorem request_shape
    (filters : FiltersType) (structure : StructureType) (as_csv : bool)
    (server : list Reply) :
  1 <= List.length
         (requests (get_paginated_dataset filters structure as_csv server))
  /\ Forall (fun request =>
               endpoint request = ENDPOINT
               /\ timeout request = 10%Z
               /\ Dict.keys (params request)
                  = [lit "filters"; lit "structure"; lit "format";
                     lit "page"]
               /\ Dict.lookup (params request) (lit "format")
                  = Some (PyStr (if as_csv then lit "csv" else lit "json")))
            (requests (get_paginated_dataset filters structure as_csv
                         server)).
Proof.
  split.
  - destruct (first_request filters structure as_csv server) as [later ->].
    simpl. lia.
  - apply Forall_forall. intros request Hin.
    apply request_in_call in Hin. destruct Hin as [page ->].
    destruct as_csv; repeat split; reflexivity.
Qed.

Lemma failed_step as_csv server : forall st k e,
  failed server (while_true as_csv server st) k e ->
  outcome (while_true as_csv server st) = Raised (Propagated e)
  /\ List.length (requests (while_true as_csv server st)) = S k.
Proof.
  unfold failed.
  induction server as [|reply server IH]; intros st k e [Hnth Hk].
  - destruct k; discriminate.
  - destruct k as [|k]; simpl in Hnth.
    + inversion Hnth; subst reply. rewrite while_true_failure. auto.
    + destruct reply as [r0|e0]; [|simpl in Hk; lia].
      rewrite while_true_answer in *.
      destruct (loop_body as_csv (turn st) r0) as [st'| |];
        simpl in Hk; try lia.
      destruct (IH st' k e) as [Hout Hlen]; [split; [exact Hnth|lia]|].
      unfold sent. cbn [outcome requests List.length].
      rewrite Hout, Hlen. auto.
Qed.

(** X2. When [get] itself raises (no connection, the timeout elapsed) on
    a request the call sends, the call ends with that exception as it
    was raised; that request is the last one and nothing is returned,
    whatever the earlier pages held. *)
Theorem library_failure_aborts
    (filters : FiltersType) (structure : StructureType) (as_csv : bool)
    (server : list Reply) (k : nat) (e : LibraryError) :
  let run := get_paginated_dataset filters structure as_csv server in
  failed server run k e ->
  outcome run = Raised (Propagated e)
  /\ List.length (requests run) = S k.
Proof.
  intros run H. subst run. unfold get_paginated_dataset in *.
  now apply failed_step.
Qed.

Lemma library_failure_aborts_witness :
  let page := json_response [PyInt 1] (PyStr (lit "/v1/data?page=2")) in
  let server := [Answer page; Failure ReadTimeout; Answer page] in
  let run := get_paginated_dataset [lit "areaType=region"]
               DEFAULT_QUERY_STRUCTURE false server in
  outcome run = Raised (Propagated ReadTimeout)
  /\ List.length (requests run) = 2.
Proof.
  intros page server.
  apply (@library_failure_aborts [lit "areaType=region"]
           DEFAULT_QUERY_STRUCTURE false server 1 ReadTimeout).
  split; [reflexivity|]. vm_compute. lia.
Defined.

(** JSON pages with a [next] that is not null are all read, and the call
    goes on from the state they leave. *)
Lemma while_true_json_prefix (pages : list Response) (rest : list Reply) :
  forall st,
    forallb (json_page false) pages = true ->
    exists st',
      data st' = data st ++ flat_map records pages
      /\ page_number st' = (page_number st + Z.of_nat (List.length pages))%Z
      /\ outcome (while_true false (List.map Answer pages ++ rest) st)
         = outcome (while_true false rest st')
      /\ List.length
           (requests (while_true false (List.map Answer pages ++ rest) st))
         = List.length pages
           + List.length (requests (while_true false rest st')).
Proof.
  induction pages as [|page pages IH]; intros st Hp.
  - exists st. simpl. rewrite app_nil_r, Z.add_0_r. auto.
  - simpl in Hp. apply andb_true_iff in Hp. destruct Hp as [Hpage Hrest].
    apply json_page_inv in Hpage. destruct Hpage as [Hs [next [Hf Hn]]].
    destruct (IH {| api_params := api_params (turn st);
                    data := data (turn st) ++ records page;
                    page_number := page_number (turn st) + 1 |} Hrest)
      as [st' [Hd [Hpn [Hout Hlen]]]].
    exists st'. cbn [List.map app]. rewrite while_true_answer.
    rewrite (loop_body_json_page _ _ Hs Hf), Hn.
    unfold sent. cbn [outcome requests List.length].
    cbn [data turn page_number] in Hd, Hpn.
    rewrite Hd, Hpn, Hout, Hlen.
    change (flat_map records (page :: pages))
      with (records page ++ flat_map records pages).
    rewrite <- app_assoc. repeat split; auto. lia.
Qed.

(** The same for CSV pages that decode. *)
Lemma while_true_csv_prefix (pages : list Response) (rest : list Reply) :
  forall st,
    forallb csv_readable pages = true ->
    exists st',
      data st'
      = data st
        ++ List.map PyStr
             (csv_blobs (page_number st) (List.map csv_text pages))
      /\ page_number st' = (page_number st + Z.of_nat (List.length pages))%Z
      /\ outcome (while_true true (List.map Answer pages ++ rest) st)
         = outcome (while_true true rest st')
      /\ List.length
           (requests (while_true true (List.map Answer pages ++ rest) st))
         = List.length pages
           + List.length (requests (while_true true rest st')).
Proof.
  induction pages as [|page pages IH]; intros st Hp.
  - exists st. simpl. rewrite app_nil_r, Z.add_0_r. auto.
  - simpl in Hp. apply andb_true_iff in Hp. destruct Hp as [Hpage Hrest].
    unfold csv_readable in Hpage. apply andb_true_iff in Hpage.
    destruct Hpage as [Hs Hc].
    destruct (content_decode page) as [e|content] eqn:Hcontent;
      [discriminate|].
    destruct (IH {| api_params := api_params (turn st);
                    data := data (turn st)
                            ++ [PyStr (csv_blob (page_number (turn st))
                                         content)];
                    page_number := page_number (turn st) + 1 |} Hrest)
      as [st' [Hd [Hpn [Hout Hlen]]]].
    exists st'. cbn [List.map app]. rewrite while_true_answer.
    rewrite (loop_body_csv_page _ _ Hs Hcontent).
    unfold sent. cbn [outcome requests List.length].
    cbn [data turn page_number] in Hd, Hpn.
    rewrite Hd, Hpn, Hout, Hlen.
    cbn [List.map csv_blobs]. unfold csv_text at 2. rewrite Hcontent.
    rewrite <- app_assoc. repeat split; auto. lia.
Qed.

(** X3. CSV mode has no last page of its own: as long as the server
    answers with pages of data (a data status and content that decodes)
    the call keeps asking, so after [n] such pages it has sent [n + 1]
    requests and waits for the answer to the last. Only a 204, an error
    status or an exception ends a CSV call. *)
Theorem csv_pages_never_end_the_call
    (filters : FiltersType) (structure : StructureType)
    (pages : list Response) :
  forallb csv_readable pages = true ->
  let run := get_paginated_dataset filters structure true
               (List.map Answer pages) in
  outcome run = Pending
  /\ List.length (requests run) = S (List.length pages).
Proof.
  intros Hp run. subst run. unfold get_paginated_dataset.
  match goal with
  | |- context [while_true true _ ?s] =>
      destruct (while_true_csv_prefix pages [] s Hp)
        as [st' [_ [_ [Hout Hlen]]]]
  end.
  rewrite app_nil_r in Hout, Hlen. rewrite Hout, Hlen.
  rewrite while_true_nil. cbn [outcome requests List.length].
  split; [reflexivity|lia].
Qed.

Lemma csv_pages_never_end_the_call_witness :
  let page := text_response 200 (lit "a,b" ++ LF :: lit "1,2" ++ [LF]) in
  let run := get_paginated_dataset [lit "areaType=region"]
               DEFAULT_QUERY_STRUCTURE true
               (List.map Answer [page; page; page]) in
  outcome run = Pending /\ List.length (requests run) = 4.
Proof.
  intros page.
  apply (@csv_pages_never_end_the_call [lit "areaType=region"]
           DEFAULT_QUERY_STRUCTURE [page; page; page]).
  reflexivity.
Defined.

(** X4. JSON mode relies on the server for its end: while every page
    names a [next] that is not null the call keeps asking, so after [n]
    such pages it has sent [n + 1] requests and waits for the answer to
    the last. *)
Theorem json_open_pages_never_end_the_call
    (filters : FiltersType) (structure : StructureType)
    (pages : list Response) :
  forallb (json_page false) pages = true ->
  let run := get_paginated_dataset filters structure false
               (List.map Answer pages) in
  outcome run = Pending
  /\ List.length (requests run) = S (List.length pages).
Proof.
  intros Hp run. subst run. unfold get_paginated_dataset.
  match goal with
  | |- context [while_true false _ ?s] =>
      destruct (while_true_json_prefix pages [] s Hp)
        as [st' [_ [_ [Hout Hlen]]]]
  end.
  rewrite app_nil_r in Hout, Hlen. rewrite Hout, Hlen.
  rewrite while_true_nil. cbn [outcome requests List.length].
  split; [reflexivity|lia].
Qed.

Lemma json_open_pages_never_end_the_call_witness :
  let page := json_response [PyInt 1] (PyStr (lit "/v1/data?page=2")) in
  let run := get_paginated_dataset [lit "areaType=region"]
               DEFAULT_QUERY_STRUCTURE false
               (List.map Answer [page; page]) in
  outcome run = Pending /\ List.length (requests run) = 3.
Proof.
  intros page.
  apply (@json_open_pages_never_end_the_call [lit "areaType=region"]
           DEFAULT_QUERY_STRUCTURE [page; page]).
  reflexivity.
Defined.

(** X5. A 204 ends a JSON call as well: JSON pages that all name a [next],
    followed by a 204 response, give the [data] lists of the pages
    concatenated in page order, after one request more than there are
    pages. *)
Theorem json_pages_ended_by_no_content
    (filters : FiltersType) (structure : StructureType)
    (pages : list Response) (stop : Response) (unread : list Reply) :
  forallb (json_page false) pages = true ->
  status_code stop = 204%Z ->
  let run := get_paginated_dataset filters structure false
               (List.map Answer pages ++ Answer stop :: unread) in
  outcome run = Returned (PyList (flat_map records pages))
  /\ List.length (requests run) = S (List.length pages).
Proof.
  intros Hp Hstop run. subst run. unfold get_paginated_dataset.
  match goal with
  | |- context [while_true false _ ?s] =>
      destruct (while_true_json_prefix pages (Answer stop :: unread) s Hp)
        as [st' [Hd [_ [Hout Hlen]]]]
  end.
  rewrite Hout, Hlen, while_true_answer.
  rewrite loop_body_no_content by exact Hstop.
  cbn [outcome requests List.length after_loop negb turn data].
  rewrite Hd. split; [reflexivity|lia].
Qed.

Lemma json_pages_ended_by_no_content_witness :
  let page1 := json_response [PyInt 1] (PyStr (lit "/v1/data?page=2")) in
  let page2 := json_response [PyInt 2] (PyStr (lit "/v1/data?page=3")) in
  let run := get_paginated_dataset [lit "areaType=region"]
               DEFAULT_QUERY_STRUCTURE false
               (List.map Answer [page1; page2]
                ++ [Answer (text_response 204 [])]) in
  outcome run = Returned (PyList [PyInt 1; PyInt 2])
  /\ List.length (requests run) = 3.
Proof.
  intros page1 page2.
  apply (@json_pages_ended_by_no_content [lit "areaType=region"]
           DEFAULT_QUERY_STRUCTURE [page1; page2] (text_response 204 []) []);
    reflexivity.
Defined.

Lemma while_true_csv_outcome (server : list Reply) :
  forall (st : LoopState) (kept : list str),
    data st = List.map PyStr kept ->
    match outcome (while_true true server st) with
    | Returned v => exists s, v = PyStr s
    | Raised e => (exists msg, e = RuntimeError msg)
                  \/ (exists err, e = Propagated err)
    | Pending => True
    end.
Proof.
  induction server as [|reply server IH]; intros st kept Hdata.
  - exact I.
  - destruct reply as [response|err];
      [|rewrite while_true_failure; simpl; eauto].
    rewrite while_true_answer.
    destruct (Z.geb_spec (status_code response) 400) as [Hge|Hlt].
    { rewrite loop_body_error by (unfold HTTPStatus.BAD_REQUEST; lia).
      simpl. eauto. }
    destruct (Z.eq_dec (status_code response) 204) as [Hnc|Hne].
    { rewrite loop_body_no_content by exact Hnc.
      cbn [outcome after_loop negb]. unfold py_str_join.
      cbn [turn data]. rewrite Hdata, py_strs_strings. simpl. eauto. }
    assert (Hs : data_status response = true)
      by (apply data_status_spec; split; [lia|exact Hne]).
    destruct (content_decode response) as [err|content] eqn:Hc.
    + unfold loop_body. destruct (data_status_checks _ Hs) as [-> ->].
      rewrite Hc. simpl. eauto.
    + rewrite (loop_body_csv_page _ _ Hs Hc). unfold sent.
      cbn [outcome].
      apply (IH _ (kept ++ [csv_blob (page_number (turn st)) content])).
      cbn [data turn]. rewrite Hdata, map_app. reflexivity.
Qed.

Lemma while_true_json_outcome (server : list Reply) :
  forall (st : LoopState) (v : PyValue),
    outcome (while_true false server st) = Returned v ->
    exists items, v = PyList items.
Proof.
  induction server as [|reply server IH]; intros st v H.
  - discriminate H.
  - destruct reply as [response|err]; [|discriminate H].
    rewrite while_true_answer in H.
    destruct (loop_body false (turn st) response) as [st'|st'|e].
    + exact (IH st' v H).
    + simpl in H. inversion H. eauto.
    + discriminate H.
Qed.

(** X6. What a call gives back has the type of its format: a list in JSON
    mode, a string in CSV mode. A CSV call raises nothing of its own but
    the [RuntimeError] of the status check: every other exception it ends
    with comes from [get] or from decoding the content, never from a
    lookup or from joining the pages. *)
Theorem result_has_type_of_format
    (filters : FiltersType) (structure : StructureType) (as_csv : bool)
    (server : list Reply) :
  let run := get_paginated_dataset filters structure as_csv server in
  (forall v, outcome run = Returned v ->
             if as_csv then exists s, v = PyStr s
             else exists items, v = PyList items)
  /\ (forall e, as_csv = true -> outcome run = Raised e ->
                (exists msg, e = RuntimeError msg)
                \/ (exists err, e = Propagated err)).
Proof.
  intros run. subst run. unfold get_paginated_dataset.
  match goal with
  | |- context [while_true as_csv server ?s] => set (st := s)
  end.
  split.
  - intros v H. destruct as_csv.
    + pose proof (@while_true_csv_outcome server st [] eq_refl) as Hc.
      rewrite H in Hc. exact Hc.
    + now apply while_true_json_outcome in H.
  - intros e -> H.
    pose proof (@while_true_csv_outcome server st [] eq_refl) as Hc.
    rewrite H in Hc. exact Hc.
Qed.

Lemma result_has_type_of_format_witness :
  let page := text_response 200 (lit "a,b" ++ LF :: lit "1,2") in
  let run := get_paginated_dataset [lit "areaType=region"]
               DEFAULT_QUERY_STRUCTURE true
               [Answer page; Answer (text_response 204 [])] in
  exists s, outcome run = Returned (PyStr s).
Proof.
  intros page run.
  destruct (proj1 (@result_has_type_of_format [lit "areaType=region"]
                     DEFAULT_QUERY_STRUCTURE true
                     [Answer page; Answer (text_response 204 [])])
              (PyStr (lit "a,b" ++ LF :: lit "1,2")) eq_refl) as [s Hs].
  exists s. subst run. cbn zeta. vm_compute. vm_compute in Hs.
  now rewrite <- Hs.
Defined.

Lemma loop_body_break_inv as_csv st response st' :
  loop_body as_csv st response = Break st' ->
  status_code response = 204%Z
  \/ (as_csv = false
      /\ exists current_data pagination,
           json response = inr current_data
           /\ py_getitem current_data (lit "pagination") = inr pagination
           /\ py_getitem pagination (lit "next") = inr PyNone).
Proof.
  unfold loop_body.
  destruct (status_code response >=? HTTPStatus.BAD_REQUEST)%Z;
    [discriminate|].
  destruct (Z.eqb_spec (status_code response) HTTPStatus.NO_CONTENT)
    as [Hnc|_]; [intros _; left; exact Hnc|].
  destruct as_csv.
  - destruct (content_decode response); simpl; discriminate.
  - intros H. right. split; [reflexivity|].
    destruct (json response) as [err|current_data];
      [discriminate H|].
    cbn [lift bind] in H.
    destruct (py_getitem current_data (lit "data")) as [e|page_data];
      [discriminate H|]. cbn [bind] in H.
    destruct (py_iter page_data) as [e|items]; [discriminate H|].
    cbn [bind] in H.
    destruct (py_getitem current_data (lit "pagination"))
      as [e|pagination] eqn:Hp; [discriminate H|]. cbn [bind] in H.
    destruct (py_getitem pagination (lit "next")) as [e|next] eqn:Hn;
      [discriminate H|]. cbn [bind] in H.
    exists current_data, pagination. split; [reflexivity|].
    split; [exact Hp|].
    destruct next; try discriminate H. exact Hn.
Qed.

Lemma while_true_returned as_csv (server : list Reply) :
  forall (st : LoopState) (v : PyValue),
    outcome (while_true as_csv server st) = Returned v ->
    exists k response,
      received server (while_true as_csv server st) k response
      /\ List.length (requests (while_true as_csv server st)) = S k
      /\ (status_code response = 204%Z
          \/ (as_csv = false
              /\ exists current_data pagination,
                   json response = inr current_data
                   /\ py_getitem current_data (lit "pagination")
                      = inr pagination
                   /\ py_getitem pagination (lit "next") = inr PyNone)).
Proof.
  induction server as [|reply server IH]; intros st v H.
  - discriminate H.
  - destruct reply as [response|err]; [|discriminate H].
    rewrite while_true_answer in *.
    destruct (loop_body as_csv (turn st) response) as [st'|st'|e] eqn:E.
    + destruct (IH st' v H) as [k [r [[Hnth Hk] [Hlen Hend]]]].
      exists (S k), r. unfold received, sent.
      cbn [requests List.length nth_error]. repeat split; auto; lia.
    + exists 0, response. unfold received.
      cbn [requests List.length nth_error]. repeat split; auto.
      now apply loop_body_break_inv in E.
    + discriminate H.
Qed.

(** X7. A call gives back a result only when the last response it read
    is a 204 or, in JSON mode, a page whose [pagination.next] is null;
    that response answers the last request sent. Nothing else makes the
    loop stop with a result. *)
Theorem returns_only_at_the_end
    (filters : FiltersType) (structure : StructureType) (as_csv : bool)
    (server : list Reply) (v : PyValue) :
  let run := get_paginated_dataset filters structure as_csv server in
  outcome run = Returned v ->
  exists k response,
    received server run k response
    /\ List.length (requests run) = S k
    /\ (status_code response = 204%Z
        \/ (as_csv = false
            /\ exists current_data pagination,
                 json response = inr current_data
                 /\ py_getitem current_data (lit "pagination")
                    = inr pagination
                 /\ py_getitem pagination (lit "next") = inr PyNone)).
Proof.
  intros run H. subst run. unfold get_paginated_dataset in *.
  now apply while_true_returned in H.
Qed.

Lemma returns_only_at_the_end_witness :
  let page1 := json_response [PyInt 1] (PyStr (lit "/v1/data?page=2")) in
  let page2 := json_response [PyInt 2] PyNone in
  let server := [Answer page1; Answer page2] in
  let run := get_paginated_dataset [lit "areaType=region"]
               DEFAULT_QUERY_STRUCTURE false server in
  exists k response,
    received server run k response
    /\ List.length (requests run) = S k.
Proof.
  intros page1 page2 server run.
  destruct (@returns_only_at_the_end [lit "areaType=region"]
              DEFAULT_QUERY_STRUCTURE false server
              (PyList [PyInt 1; PyInt 2]) eq_refl)
    as [k [response [Hrec [Hlen _]]]].
  exists k, response. split; [exact Hrec|exact Hlen].
Defined.

Lemma split_one_line (c : char) (s : str) :
  ~ In c s -> Str.split c s = [s].
Proof.
  induction s as [|x s IH]; intros Hc; [reflexivity|].
  simpl. destruct (N.eqb_spec x c) as [->|_].
  - exfalso. apply Hc. left. reflexivity.
  - rewrite IH; [reflexivity|]. intros Hin. apply Hc. right. exact Hin.
Qed.

(** X8. A page after the first that holds a single line (no line feed)
    is taken for a header and dropped whole: nothing of it reaches the
    result, which is the stripped first page followed by a line feed. *)
Theorem csv_single_line_page_is_dropped
    (filters : FiltersType) (structure : StructureType)
    (first later : str) (page1 page2 stop : Response)
    (unread : list Reply) :
  csv_page first page1 = true ->
  csv_page later page2 = true ->
  one_line later = true ->
  status_code stop = 204%Z ->
  let run := get_paginated_dataset filters structure true
               (Answer page1 :: Answer page2 :: Answer stop :: unread) in
  outcome run = Returned (PyStr (strip first ++ [LF]))
  /\ List.length (requests run) = 3.
Proof.
  intros Hp1 Hp2 Hl Hstop run. subst run. unfold get_paginated_dataset.
  match goal with
  | |- context [while_true true _ ?s] =>
      destruct (@while_true_csv_pages [first; later] [page1; page2] stop
                  unread [] s) as [Hout Hlen]
  end.
  - simpl. now rewrite Hp1, Hp2.
  - exact Hstop.
  - reflexivity.
  - cbn [List.map app] in Hout, Hlen. rewrite Hout, Hlen.
    split; [|reflexivity].
    cbn [page_number csv_blobs app]. rewrite csv_blob_first.
    unfold csv_blob. cbn [Z.gtb Z.add Z.compare Pos.compare Pos.add
                          Pos.compare_cont].
    rewrite split_one_line by (now apply one_line_spec).
    reflexivity.
Qed.

Lemma csv_single_line_page_is_dropped_witness :
  let page1 := text_response 200 (lit "a,b" ++ LF :: lit "1,2" ++ [LF]) in
  let page2 := text_response 200 (lit "3,4") in
  let run := get_paginated_dataset [lit "areaType=region"]
               DEFAULT_QUERY_STRUCTURE true
               [Answer page1; Answer page2; Answer (text_response 204 [])] in
  outcome run = Returned (PyStr (lit "a,b" ++ LF :: lit "1,2" ++ [LF]))
  /\ List.length (requests run) = 3.
Proof.
  intros page1 page2.
  apply (@csv_single_line_page_is_dropped [lit "areaType=region"]
           DEFAULT_QUERY_STRUCTURE
           (lit "a,b" ++ LF :: lit "1,2" ++ [LF]) (lit "3,4")
           page1 page2 (text_response 204 []) []);
    reflexivity.
Defined.

(** X9. In CSV mode, when the content of a page the call receives does
    not decode, the call ends with the exception of the decoder as it was
    raised; the request that page answers is the last one and nothing is
    returned. *)
Theorem undecodable_csv_propagates
    (filters : FiltersType) (structure : StructureType)
    (server : list Reply) (k : nat) (response : Response)
    (err : LibraryError) :
  let run := get_paginated_dataset filters structure true server in
  received server run k response ->
  (status_code response < 400)%Z ->
  status_code response <> 204%Z ->
  content_decode response = inl err ->
  outcome run = Raised (Propagated err)
  /\ List.length (requests run) = S k.
Proof.
  intros run Hrec Hlt Hne Hc. subst run.
  assert (Hs : data_status response = true)
    by (apply data_status_spec; auto).
  unfold get_paginated_dataset in *.
  apply received_step in Hrec. destruct Hrec as [st_k [_ Hstep]].
  unfold loop_body in Hstep.
  destruct (data_status_checks _ Hs) as [H1 H2].
  rewrite H1, H2, Hc in Hstep. exact Hstep.
Qed.

Lemma undecodable_csv_propagates_witness :
  let page := text_response 200 (lit "a,b" ++ LF :: lit "1,2") in
  let broken := with_content (inl UnicodeDecodeError) page in
  let server := [Answer page; Answer broken; Answer page] in
  let run := get_paginated_dataset [lit "areaType=region"]
               DEFAULT_QUERY_STRUCTURE true server in
  outcome run = Raised (Propagated UnicodeDecodeError)
  /\ List.length (requests run) = 2.
Proof.
  intros page broken server.
  apply (@undecodable_csv_propagates [lit "areaType=region"]
           DEFAULT_QUERY_STRUCTURE server 1 broken UnicodeDecodeError).
  - split; [reflexivity|]. vm_compute. lia.
  - vm_compute. reflexivity.
  - vm_compute. discriminate.
  - reflexivity.
Defined.

Module AsciiFacts.

Lemma nibble_bound (n : N) : (N.land n 15 < 16)%N.
Proof.
  change 15%N with (N.ones 4). rewrite N.land_ones.
  apply N.mod_upper_bound. discriminate.
Qed.

Lemma hex_digit_printable (d : N) :
  (d < 16)%N -> printable [hex_digit d] = true.
Proof.
  intros Hd. unfold printable, hex_digit. cbn [forallb].
  rewrite andb_true_r, andb_true_iff, !N.leb_le.
  destruct (N.ltb_spec d 10); lia.
Qed.

Lemma printable_app (a b : str) :
  printable (a ++ b) = printable a && printable b.
Proof. apply forallb_app. Qed.

Lemma hex4_printable (n : N) : printable (hex4 n) = true.
Proof.
  unfold hex4.
  change (printable ([hex_digit (N.land (N.shiftr n 12) 15)]
                     ++ [hex_digit (N.land (N.shiftr n 8) 15)]
                     ++ [hex_digit (N.land (N.shiftr n 4) 15)]
                     ++ [hex_digit (N.land n 15)]) = true).
  rewrite !printable_app, !hex_digit_printable by apply nibble_bound.
  reflexivity.
Qed.

Lemma escape_char_printable (c : char) :
  printable (Json.escape_char c) = true.
Proof.
  unfold Json.escape_char.
  repeat match goal with
         | |- context [if ?b then _ else _] => destruct b eqn:?
         end;
    rewrite ?printable_app, ?hex4_printable; try reflexivity.
  unfold printable. simpl. now rewrite andb_true_r.
Qed.

Lemma encode_basestring_printable (s : str) :
  printable (Json.encode_basestring s) = true.
Proof.
  unfold Json.encode_basestring. rewrite !printable_app.
  replace (printable (flat_map Json.escape_char s)) with true;
    [reflexivity|].
  symmetry. induction s as [|c s IH]; [reflexivity|].
  simpl. now rewrite printable_app, escape_char_printable, IH.
Qed.

Lemma join_printable (sep : str) (parts : list str) :
  printable sep = true -> forallb printable parts = true ->
  printable (Str.join sep parts) = true.
Proof.
  intros Hsep. induction parts as [|p parts IH]; [reflexivity|].
  simpl forallb. rewrite andb_true_iff. intros [Hp Hparts].
  destruct parts as [|q parts]; [exact Hp|].
  rewrite join_cons, !printable_app, Hp, Hsep. simpl. now apply IH.
Qed.

Lemma dumps_value_printable :
  forall v, printable (Json.dumps_value (lit ",", lit ":") v) = true.
Proof.
  fix IH 1. intros [s|entries].
  - apply encode_basestring_printable.
  - cbn [Json.dumps_value fst snd].
    rewrite !printable_app, andb_true_iff. split; [reflexivity|].
    rewrite andb_true_iff. split; [|reflexivity].
    apply join_printable; [reflexivity|].
    induction entries as [|[key field] entries IHe]; [reflexivity|].
    cbn [List.map forallb fst snd]. rewrite !printable_app.
    rewrite encode_basestring_printable, (IH field), IHe. reflexivity.
Qed.

End AsciiFacts.

(** X10. Whatever characters the keys and field names of the structure
    hold (non-ASCII letters, control characters, quotes), the [structure]
    parameter of every request is printable ASCII: [json.dumps] escapes
    the rest. *)
Theorem structure_parameter_is_ascii
    (filters : FiltersType) (structure : StructureType) (as_csv : bool)
    (server : list Reply) :
  printable (Json.dumps (lit ",", lit ":") structure) = true
  /\ Forall (fun request =>
               exists s, Dict.lookup (params request) (lit "structure")
                         = Some (PyStr s)
                         /\ printable s = true)
            (requests (get_paginated_dataset filters structure as_csv
                         server)).
Proof.
  assert (H : printable (Json.dumps (lit ",", lit ":") structure) = true)
    by apply AsciiFacts.dumps_value_printable.
  split; [exact H|].
  apply Forall_forall. intros request Hin.
  apply request_in_call in Hin. destruct Hin as [page ->].
  exists (Json.dumps (lit ",", lit ":") structure).
  split; [reflexivity|exact H].
Qed.

Lemma loop_body_same_for_csv st r r' :
  same_for_csv r r' -> loop_body true st r = loop_body true st r'.
Proof.
  intros [Hs [Ht Hc]]. unfold loop_body. now rewrite Hs, Ht, Hc.
Qed.

Lemma loop_body_same_for_json st r r' :
  same_for_json r r' -> loop_body false st r = loop_body false st r'.
Proof.
  intros [Hs [Ht Hj]]. unfold loop_body. now rewrite Hs, Ht, Hj.
Qed.

Lemma while_true_alike as_csv (R : Response -> Response -> Prop)
    (server server' : list Reply) :
  (forall st r r', R r r' ->
                   loop_body as_csv st r = loop_body as_csv st r') ->
  alike R server server' ->
  forall st, while_true as_csv server st = while_true as_csv server' st.
Proof.
  intros HR Ha. induction Ha as [|r r' server server' Hr Ha IH|e server server' Ha IH];
    intros st.
  - reflexivity.
  - rewrite !while_true_answer, (HR _ _ _ Hr).
    destruct (loop_body as_csv (turn st) r'); try reflexivity.
    now rewrite IH.
  - reflexivity.
Qed.

(** X11. Each format reads its own part of a response and nothing else:
    a CSV call never looks at what [json()] would give, a JSON call never
    at the decoded content. Two servers whose replies agree on the
    status, the text and the part the format reads give the same result
    and the same requests. *)
Theorem formats_read_their_own_part
    (filters : FiltersType) (structure : StructureType)
    (server server' : list Reply) :
  (alike same_for_csv server server' ->
   get_paginated_dataset filters structure true server
   = get_paginated_dataset filters structure true server')
  /\ (alike same_for_json server server' ->
      get_paginated_dataset filters structure false server
      = get_paginated_dataset filters structure false server').
Proof.
  split; intros Ha; unfold get_paginated_dataset.
  - apply (@while_true_alike true same_for_csv); [|exact Ha].
    intros st r r'. apply loop_body_same_for_csv.
  - apply (@while_true_alike false same_for_json); [|exact Ha].
    intros st r r'. apply loop_body_same_for_json.
Qed.

Lemma formats_read_their_own_part_witness :
  let page := text_response 200 (lit "a,b" ++ LF :: lit "1,2") in
  let page' := with_json (inr (PyList [])) page in
  let stop := text_response 204 [] in
  get_paginated_dataset [lit "areaType=region"] DEFAULT_QUERY_STRUCTURE true
    [Answer page; Answer stop]
  = get_paginated_dataset [lit "areaType=region"] DEFAULT_QUERY_STRUCTURE
      true [Answer page'; Answer stop].
Proof.
  intros page page' stop.
  apply (proj1 (@formats_read_their_own_part [lit "areaType=region"]
                  DEFAULT_QUERY_STRUCTURE
                  [Answer page; Answer stop] [Answer page'; Answer stop])).
  repeat constructor.
Defined.

(** X12. [str] of an area type is its value, and the six area types have
    six different values: the filter [areaType=<value>] tells them
    apart. *)
Theorem area_type_str_injective (a b : AreaTypeEnum) :
  AreaTypeEnum_str a = AreaTypeEnum_str b -> a = b.
Proof.
  destruct a, b; intros H; try reflexivity; vm_compute in H;
    discriminate H.
Qed.

Lemma area_type_str_injective_witness :
  AreaTypeEnum_str REGION = lit "region" /\ REGION = REGION.
Proof.
  split; [reflexivity|].
  apply (@area_type_str_injective REGION REGION). reflexivity.
Defined.

(** ** The boundary data loaders *)

Module BoundaryFacts.

Section ClassBody.

Variable P : Platform.
Variable c : BoundaryClass.




Lemma class_body_unreachable http w err :
  Dict.lookup (files w) (filepath c) = None ->
  http (source_url c) = Failure err ->
  class_body P http c w
  = (inl (Propagated err),
     fetch (source_url c) (log ERROR (missing_message c) w)).
Proof.
  intros Hf Hh. unfold class_body. now rewrite Hf, Hh.
Qed.

(** The class body writes to no file but its own. *)
Lemma class_body_frame http w path :
  path <> filepath c ->
  Dict.lookup (files (snd (class_body P http c w))) path
  = Dict.lookup (files w) path.
Proof.
  intros Hp. unfold class_body.
  destruct (Dict.lookup (files w) (filepath c)); [reflexivity|].
  destruct (http (source_url c)) as [response|err]; [|reflexivity].
  destruct (json_loads P (text response)); simpl;
    rewrite ?lookup_setitem_other by congruence; reflexivity.
Qed.

(** Without its file the class body asks for its URL, once. *)
Lemma class_body_fetches http w :
  Dict.lookup (files w) (filepath c) = None ->
  fetched (snd (class_body P http c w)) = fetched w ++ [source_url c].
Proof.
  intros Hf. unfold class_body. rewrite Hf.
  destruct (http (source_url c)) as [response|err]; [|reflexivity].
  destruct (json_loads P (text response)); reflexivity.
Qed.

End ClassBody.

End BoundaryFacts.

Import BoundaryFacts.





(** X16. A request that fails leaves no file: the import ends with the
    exception of [get], the files are as they were, and the next import
    asks the server again. *)
Theorem failed_download_is_retried
    (P : Platform) (http http' : str -> Reply) (c : BoundaryClass)
    (w : World) (err : LibraryError) :
  Dict.lookup (files w) (filepath c) = None ->
  http (source_url c) = Failure err ->
  let w' := snd (class_body P http c w) in
  fst (class_body P http c w) = inl (Propagated err)
  /\ files w' = files w
  /\ fetched (snd (class_body P http' c w'))
     = fetched w ++ [source_url c; source_url c].
Proof.
  intros Hf Hh. rewrite (class_body_unreachable _ _ _ _ Hf Hh).
  cbn [fst snd]. split; [reflexivity|]. split; [reflexivity|].
  rewrite class_body_fetches by exact Hf.
  cbn [fetched fetch log]. now rewrite <- app_assoc.
Qed.

Lemma failed_download_is_retried_witness :
  let offline := fun _ : str => Failure ConnectionError in
  let good := fun _ : str => Answer (text_response 200 (lit "null")) in
  let w' := snd (class_body null_platform offline NHSBoundaryData
                   empty_world) in
  files w' = []
  /\ fetched (snd (class_body null_platform good NHSBoundaryData w'))
     = [source_url NHSBoundaryData; source_url NHSBoundaryData].
Proof.
  intros offline good w'.
  destruct (@failed_download_is_retried null_platform offline good
              NHSBoundaryData empty_world ConnectionError)
    as [_ [Hfiles Hnext]]; try reflexivity.
  split; [exact Hfiles|exact Hnext].
Defined.

(** X17. The two classes do not disturb each other: a class body changes
    no file but its own, so for classes with different file paths (as
    [NHSBoundaryData] and [RegionalBoundaryData] have) the data one binds
    is the same whether or not the other was imported before it. *)
Theorem classes_are_independent
    (P : Platform) (http : str -> Reply) (c1 c2 : BoundaryClass)
    (w : World) :
  filepath c1 <> filepath c2 ->
  (forall path, path <> filepath c1 ->
                Dict.lookup (files (snd (class_body P http c1 w))) path
                = Dict.lookup (files w) path)
  /\ fst (class_body P http c2 (snd (class_body P http c1 w)))
     = fst (class_body P http c2 w).
Proof.
  intros Hne. split; [intros path Hp; now apply class_body_frame|].
  assert (Hl : Dict.lookup (files (snd (class_body P http c1 w)))
                 (filepath c2)
               = Dict.lookup (files w) (filepath c2))
    by (apply class_body_frame; congruence).
  unfold class_body at 1 3. rewrite Hl.
  destruct (Dict.lookup (files w) (filepath c2)); [reflexivity|].
  destruct (http (source_url c2)) as [response|err]; [|reflexivity].
  destruct (json_loads P (text response)); reflexivity.
Qed.

Lemma classes_are_independent_witness :
  let http := fun _ : str => Answer (text_response 200 (lit "null")) in
  fst (class_body null_platform http RegionalBoundaryData
         (snd (class_body null_platform http NHSBoundaryData empty_world)))
  = fst (class_body null_platform http RegionalBoundaryData empty_world).
Proof.
  intros http.
  apply (proj2 (@classes_are_independent null_platform http
                  NHSBoundaryData RegionalBoundaryData empty_world
                  ltac:(vm_compute; discriminate))).
Defined.



(** X19. A call that has ended does not depend on what the server would
    have answered next: it has sent no more requests than it read
    replies, and the same server with further replies lined up gives the
    same result and the same requests. *)
Theorem ended_call_reads_no_further
    (filters : FiltersType) (structure : StructureType) (as_csv : bool)
    (server unread : list Reply) :
  let run := get_paginated_dataset filters structure as_csv server in
  outcome run <> Pending ->
  List.length (requests run) <= List.length server
  /\ get_paginated_dataset filters structure as_csv (server ++ unread)
     = run.
Proof.
  intros run H. subst run. unfold get_paginated_dataset in *.
  split; [now apply requests_bounded|now apply while_true_unread].
Qed.

Lemma ended_call_reads_no_further_witness :
  let page := json_response [PyInt 1] PyNone in
  let run := get_paginated_dataset [lit "areaType=region"]
               DEFAULT_QUERY_STRUCTURE false [Answer page] in
  List.length (requests run) <= 1
  /\ get_paginated_dataset [lit "areaType=region"] DEFAULT_QUERY_STRUCTURE
       false ([Answer page] ++ [Failure ConnectionError])
     = run.
Proof.
  intros page.
  apply (@ended_call_reads_no_further [lit "areaType=region"]
           DEFAULT_QUERY_STRUCTURE false [Answer page]
           [Failure ConnectionError]).
  vm_compute. discriminate.
Defined.

(** ** The class body on any file system *)

Lemma lookup_as_file (d : dict str) (path : str) :
  Dict.lookup (List.map (fun kv => (fst kv, File (snd kv) None None)) d) path
  = option_map (fun content => File content None None) (Dict.lookup d path).
Proof.
  induction d as [|[k v] d IH]; [reflexivity|].
  simpl. destruct (Str.eqb k path); [reflexivity|exact IH].
Qed.

Lemma setitem_as_file (d : dict str) (path content : str) :
  Dict.setitem (List.map (fun kv => (fst kv, File (snd kv) None None)) d)
    path (File content None None)
  = List.map (fun kv => (fst kv, File (snd kv) None None))
      (Dict.setitem d path content).
Proof.
  induction d as [|[k v] d IH]; [reflexivity|].
  simpl. destruct (Str.eqb k path); simpl; [reflexivity|].
  now rewrite IH.
Qed.

(** On plain files the class body of the general file system is
    [class_body]: the same result, and the same world after it. *)
Lemma class_body_os_plain
    (P : Platform) (http : str -> Reply) (c : BoundaryClass) (w : World) :
  class_body_os P http c (host_of w)
  = (fst (class_body P http c w), host_of (snd (class_body P http c w))).
Proof.
  unfold class_body_os, class_body, node_at. cbv zeta.
  cbn [host_of nodes host_log host_fetch files log fetch].
  rewrite !lookup_as_file.
  destruct (Dict.lookup (files w) (filepath c)) as [content|] eqn:Hf;
    cbn [option_map open_read open_write]; [reflexivity|].
  destruct (http (source_url c)) as [response|err]; [|reflexivity].
  destruct (json_loads P (text response)) as [err|data];
    cbn [fst snd put]; f_equal;
    unfold host_of, set_node, host_log, host_fetch, write, log, fetch;
    cbn [nodes host_logged host_fetched files logged fetched];
    rewrite ?setitem_as_file; reflexivity.
Qed.

(** X13. The class body goes to the network exactly when the file cannot
    be opened for reading, be it missing, something [open] cannot open (a
    directory) or a file that may not be read: then it logs the error
    first and asks once, for the URL of the class. When the file can be
    read, whatever it holds, the import is decided by parsing its text,
    and nothing is asked, logged or written. *)
Theorem network_exactly_when_open_fails
    (P : Platform) (http : str -> Reply) (c : BoundaryClass) (h : Host) :
  let h' := snd (class_body_os P http c h) in
  match node_at h (filepath c) with
  | File content None _ =>
      class_body_os P http c h = (lift (json_loads P content), h)
  | Missing _ | Closed _ | File _ (Some _) _ =>
      host_fetched h' = host_fetched h ++ [source_url c]
      /\ exists more,
           host_logged h'
           = host_logged h ++ (ERROR, missing_message c) :: more
  end.
Proof.
  assert (Fails :
    open_read (node_at h (filepath c)) = None ->
    host_fetched (snd (class_body_os P http c h))
    = host_fetched h ++ [source_url c]
    /\ exists more,
         host_logged (snd (class_body_os P http c h))
         = host_logged h ++ (ERROR, missing_message c) :: more).
  { intros Hr. unfold class_body_os. rewrite Hr.
    destruct (http (source_url c)) as [response|err];
      [|simpl; split; [reflexivity|now exists []]].
    destruct (open_write _) as [err|f];
      [simpl; split; [reflexivity|now exists []]|].
    destruct (json_loads P (text response)); simpl.
    - split; [reflexivity|now exists []].
    - split; [reflexivity|]. rewrite <- app_assoc. simpl. eauto. }
  cbn zeta.
  destruct (node_at h (filepath c)) as [creating|err|content [err|] writing]
    eqn:Hn; try (apply Fails; reflexivity).
  unfold class_body_os. now rewrite Hn.
Qed.

(** A directory stands where the file should be: the import logs, asks
    the server, and ends with the exception of [open(filepath, 'w')];
    nothing is written, and the next import does the same. *)
Example directory_in_the_way :
  let h := {| nodes := [ (lit "nhs_regions.geojson",
                          Closed (OtherLibraryError
                                    (lit "IsADirectoryError"))) ];
              host_logged := []; host_fetched := [] |} in
  let http := fun _ : str => Answer (text_response 200 (lit "null")) in
  class_body_os null_platform http NHSBoundaryData h
  = (inl (Propagated (OtherLibraryError (lit "IsADirectoryError"))),
     {| nodes := nodes h;
        host_logged := [ (ERROR,
                          lit "No NHS region data found - downloading...") ];
        host_fetched := [source_url NHSBoundaryData] |}).
Proof. reflexivity. Qed.
